(** * The room store of the annotation backend

    A shallow embedding of [app/services/disentanglement.py] and of the
    models of [app/models/disentanglement.py], and the properties of the
    import / export / annotate / summary / list / delete operations.

    A Python [str] is a [string]; a character is read as a code point
    below 256.  A [dict] keyed by strings is a [gmap string _].  The
    service keeps its rooms in memory and rewrites one file per room, so an
    operation is a function on a state made of the room mapping, the file
    system and the number of clock reads, returning a value or the
    exception it raised. *)

From Stdlib Require Import ZArith List String Ascii Bool Lia.
From stdpp Require Import base option list strings gmap.

Local Open Scope string_scope.

(** ** Python strings *)

Module Py.

(** [str.isspace] on one character (code points below 256). *)
Definition isspace (c : ascii) : bool :=
  let n := nat_of_ascii c in
  (((9 <=? n) && (n <=? 13)) || ((28 <=? n) && (n <=? 32))
   || (n =? 133) || (n =? 160))%nat.

(** [str.lower] on one character (code points below 256). *)
Definition lower_char (c : ascii) : ascii :=
  let n := nat_of_ascii c in
  if (((65 <=? n) && (n <=? 90))
      || ((192 <=? n) && (n <=? 222) && negb (n =? 215)))%nat
  then ascii_of_nat (n + 32) else c.

Fixpoint lower (s : string) : string :=
  match s with
  | EmptyString => EmptyString
  | String c s' => String (lower_char c) (lower s')
  end.

Fixpoint lstrip (s : string) : string :=
  match s with
  | EmptyString => EmptyString
  | String c s' => if isspace c then lstrip s' else s
  end.

Definition rstrip (s : string) : string :=
  String.rev (lstrip (String.rev s)).

(** [s.strip()] *)
Definition strip (s : string) : string := rstrip (lstrip s).

(** [x in (a, b, ...)] for strings. *)
Definition str_in (x : string) (l : list string) : bool :=
  existsb (String.eqb x) l.

(** Truth value of a [str]: the empty string is false. *)
Definition truthy_str (s : string) : bool := negb (s =? "").

(** Truth value of an [Optional[str]]. *)
Definition truthy (o : option string) : bool :=
  match o with
  | Some s => truthy_str s
  | None => false
  end.

(** [a or b] on an [Optional[str]] whose right operand is a [str]. *)
Definition str_or (a : option string) (b : string) : option string :=
  if truthy a then a else Some b.

(** [s.rfind(c)]: position of the last occurrence. *)
Fixpoint rfind (c : ascii) (s : string) : option nat :=
  match s with
  | EmptyString => None
  | String a s' =>
      match rfind c s' with
      | Some i => Some (S i)
      | None => if Ascii.eqb a c then Some 0 else None
      end
  end.

(** [s.split(c)] *)
Fixpoint split (c : ascii) (s : string) : list string :=
  match s with
  | EmptyString => [EmptyString]
  | String a s' =>
      if Ascii.eqb a c then EmptyString :: split c s'
      else match split c s' with
           | x :: xs => String a x :: xs
           | [] => [String a EmptyString]
           end
  end.

(** [sep.join(l)] *)
Fixpoint join (sep : string) (l : list string) : string :=
  match l with
  | [] => ""
  | [x] => x
  | x :: xs => x ++ sep ++ join sep xs
  end.

Definition startswith (p s : string) : bool := String.prefix p s.

(** [c in s] for a character. *)
Fixpoint contains (c : ascii) (s : string) : bool :=
  match s with
  | EmptyString => false
  | String a s' => Ascii.eqb a c || contains c s'
  end.

End Py.

(** ** pathlib (POSIX flavour) *)

Module Path.

(** The components of a path: repeated slashes and [.] components are
    dropped when a path is built. *)
Definition parts (p : string) : list string :=
  filter (λ x, x ≠ "" ∧ x ≠ ".") (Py.split "/" p).

Definition root (p : string) : string :=
  if Py.startswith "//" p && negb (Py.startswith "///" p) then "//"
  else if Py.startswith "/" p then "/" else "".

(** [str(Path(p))] *)
Definition str (p : string) : string :=
  match root p, parts p with
  | "", [] => "."
  | r, ps => r ++ Py.join "/" ps
  end.

(** [Path(p).name] *)
Definition name (p : string) : string := List.last (parts p) "".

(** [Path(p).stem]: the name without its last suffix. *)
Definition stem (p : string) : string :=
  let n := name p in
  match Py.rfind "." n with
  | Some i =>
      if ((0 <? i) && (i <? String.length n - 1))%nat
      then String.substring 0 i n
      else n
  | None => n
  end.

(** [str(Path(d) / n)]: an absolute right operand replaces the left. *)
Definition join (d n : string) : string :=
  if Py.startswith "/" n then str n else str (d ++ "/" ++ n).

End Path.

(** ** JSON documents, as [json.load] returns them *)

#[warnings="-register-all"]
Inductive json : Type :=
  | JNull
  | JBool (b : bool)
  | JNum (n : Z)
  | JStr (s : string)
  | JArr (items : list json)
  | JObj (fields : list (string * json)).

(** [d.get(k)] on the [dict] of a JSON object: the keys of a loaded object
    are pairwise distinct, the first binding is the binding. *)
Fixpoint assoc {A} (k : string) (d : list (string * A)) : option A :=
  match d with
  | [] => None
  | (k', v) :: d' => if k' =? k then Some v else assoc k d'
  end.

(** ** What the service takes from Python and its libraries

    [datetime], the [csv] and [json] modules and the field validators of
    pydantic are not code of this repository; the service is embedded over
    an arbitrary implementation of them. *)

Class Runtime : Type := {
  (** [datetime.datetime] *)
  datetime : Type;
  (** [str(d)], which is also what [json.dump(..., default=str)] and the csv
      writer store for a datetime *)
  datetime_str : datetime → string;
  (** the value of the k-th call of [datetime.now()] *)
  datetime_now : nat → datetime;
  (** the content of a file *)
  text : Type;
  (** the records [csv.reader] yields for a file *)
  csv_reader : text → list (list string);
  (** the file [csv.writer] produces from records *)
  csv_writer : list (list string) → text;
  (** [json.load]; [None] when it raises *)
  json_load : text → option json;
  (** [json.dump(doc, f, indent=...)] *)
  json_dump : option nat → json → text;
  (** pydantic's validation of a non-null value for a [str] field *)
  str_validator : json → option string;
  (** pydantic's validation of a non-null value for a [datetime] field *)
  datetime_validator : json → option datetime
}.

(** The facts about the libraries that the properties below rely on. *)
Class RuntimeLaws (R : Runtime) : Prop := {
  json_load_dump : ∀ indent doc, json_load (json_dump indent doc) = Some doc;
  str_validator_str : ∀ s, str_validator (JStr s) = Some s;
  datetime_validator_str :
    ∀ d, datetime_validator (JStr (datetime_str d)) = Some d
}.

(** ** Exceptions *)

Inductive exn : Type :=
  | HTTPException (status_code : Z) (detail : string)
  | FileNotFoundError (path : string)
  | JSONDecodeError
  | KeyError (key : string)
  | TypeError
  | ValueError
  | ValidationError.

(** The failures of the specification. *)
Definition NotFoundError : exn := HTTPException 404 "Chat room not found".
Definition TurnNotFoundError : exn := HTTPException 404 "Turn not found".

Section Model.

Context {R : Runtime}.

(** ** app/models/disentanglement.py *)

Record DisentangledTurn : Type := {
  user_id : string;
  turn_id : string;
  turn_text : string;
  reply_to_turn : option string;
  thread_id : option string;
  annotator_id : option string;
  annotation_timestamp : option datetime;
  annotation_notes : option string
}.

Record DisentanglementChatRoom : Type := {
  room_id : string;
  turns : list DisentangledTurn
}.

(** A value of a model's [.dict()]. *)
Inductive pyval : Type :=
  | PNone
  | PStr (s : string)
  | PDatetime (d : datetime).

Definition of_opt_str (o : option string) : pyval :=
  match o with Some s => PStr s | None => PNone end.

Definition of_opt_datetime (o : option datetime) : pyval :=
  match o with Some d => PDatetime d | None => PNone end.

(** [turn.dict()], in the order of the field declarations. *)
Definition turn_dict (t : DisentangledTurn) : list (string * pyval) :=
  [ ("user_id", PStr (user_id t));
    ("turn_id", PStr (turn_id t));
    ("turn_text", PStr (turn_text t));
    ("reply_to_turn", of_opt_str (reply_to_turn t));
    ("thread_id", of_opt_str (thread_id t));
    ("annotator_id", of_opt_str (annotator_id t));
    ("annotation_timestamp", of_opt_datetime (annotation_timestamp t));
    ("annotation_notes", of_opt_str (annotation_notes t)) ].

(** What [json.dump(..., default=str)] writes for a value. *)
Definition json_of_pyval (v : pyval) : json :=
  match v with
  | PNone => JNull
  | PStr s => JStr s
  | PDatetime d => JStr (datetime_str d)
  end.

Definition json_of_dict (d : list (string * pyval)) : json :=
  JObj (map (λ kv, (kv.1, json_of_pyval kv.2)) d).

(** [room.dict()] as [json.dump(..., default=str)] writes it. *)
Definition room_json (room : DisentanglementChatRoom) : json :=
  JObj [ ("room_id", JStr (room_id room));
         ("turns", JArr (map (λ t, json_of_dict (turn_dict t)) (turns room))) ].

(** What the csv writer stores for a value. *)
Definition csv_of_pyval (v : pyval) : string :=
  match v with
  | PNone => ""
  | PStr s => s
  | PDatetime d => datetime_str d
  end.

(** A field of a model read from a JSON object. *)
Definition required_str (obj : list (string * json)) (k : string)
  : option string :=
  match assoc k obj with
  | None | Some JNull => None
  | Some v => str_validator v
  end.

Definition optional_field {A} (validator : json → option A)
    (obj : list (string * json)) (k : string) : option (option A) :=
  match assoc k obj with
  | None | Some JNull => Some None
  | Some v => Some <$> validator v
  end.

(** [DisentangledTurn.parse_obj(turn_data)]; [None] when validation
    fails.  Keys that are not fields are ignored. *)
Definition parse_turn (turn_data : json) : option DisentangledTurn :=
  match turn_data with
  | JObj obj =>
      u ← required_str obj "user_id";
      i ← required_str obj "turn_id";
      x ← required_str obj "turn_text";
      r ← optional_field str_validator obj "reply_to_turn";
      th ← optional_field str_validator obj "thread_id";
      a ← optional_field str_validator obj "annotator_id";
      ts ← optional_field datetime_validator obj "annotation_timestamp";
      n ← optional_field str_validator obj "annotation_notes";
      Some {| user_id := u; turn_id := i; turn_text := x;
              reply_to_turn := r; thread_id := th; annotator_id := a;
              annotation_timestamp := ts; annotation_notes := n |}
  | _ => None
  end.

(** ** The state of the service and of its environment *)

Record State : Type := {
  (** [self.disentanglement_rooms] *)
  disentanglement_rooms : gmap string DisentanglementChatRoom;
  (** the files, by path *)
  fs : gmap string text;
  (** how many times [datetime.now()] has been called *)
  clock : nat
}.

(** An operation runs on a state and returns a value or the exception it
    raised; what it did before raising stays done. *)
Definition M (A : Type) : Type := State → (exn + A) * State.

Definition ret {A} (a : A) : M A := λ s, (inr a, s).

Definition raise {A} (e : exn) : M A := λ s, (inl e, s).

Definition bind {A B} (m : M A) (f : A → M B) : M B :=
  λ s, match m s with
       | (inl e, s') => (inl e, s')
       | (inr a, s') => f a s'
       end.

Local Notation "'let*' x := m 'in' k" := (bind m (λ x, k))
  (at level 10, x name, m at level 100, k at level 200).
Local Notation "m ;; k" := (bind m (λ _, k))
  (at level 100, k at level 200, right associativity).

(** [for x in l: ys.append(f(x))] *)
Fixpoint for_each {A B} (f : A → M B) (l : list A) : M (list B) :=
  match l with
  | [] => ret []
  | x :: l' =>
      let* y := f x in
      let* ys := for_each f l' in
      ret (y :: ys)
  end.

(** [datetime.now()] *)
Definition now : M datetime :=
  λ s, (inr (datetime_now (clock s)),
        {| disentanglement_rooms := disentanglement_rooms s;
           fs := fs s; clock := S (clock s) |}).

Definition get_rooms : M (gmap string DisentanglementChatRoom) :=
  λ s, (inr (disentanglement_rooms s), s).

Definition set_rooms (rooms : gmap string DisentanglementChatRoom) : M unit :=
  λ s, (inr tt, {| disentanglement_rooms := rooms;
                   fs := fs s; clock := clock s |}).

Definition set_fs (files : gmap string text) : M unit :=
  λ s, (inr tt, {| disentanglement_rooms := disentanglement_rooms s;
                   fs := files; clock := clock s |}).

(** [open(path, 'r')] and reading the whole file *)
Definition read_file (path : string) : M text :=
  λ s, match fs s !! path with
       | Some content => (inr content, s)
       | None => (inl (FileNotFoundError path), s)
       end.

(** [open(path, 'w')] and writing the whole file *)
Definition write_file (path : string) (content : text) : M unit :=
  λ s, set_fs (<[path := content]> (fs s)) s.

(** [if path.exists(): path.unlink()] *)
Definition unlink_if_exists (path : string) : M unit :=
  λ s, match fs s !! path with
       | Some _ => set_fs (delete path (fs s)) s
       | None => (inr tt, s)
       end.

(** [self.data_dir] *)
Definition data_dir : string := "data/chatrooms".

(** [_save_room] *)
Definition _save_room (room : DisentanglementChatRoom) : M unit :=
  let file_path := Path.join data_dir (room_id room ++ ".json") in
  write_file file_path (json_dump None (room_json room)).

(** ** csv.DictReader and csv.DictWriter *)

(** The [dict] of one row: the field names zipped with the row, a short
    row padded with [None]. *)
Definition dict_row (fieldnames row : list string)
  : gmap string (option string) :=
  foldl (λ d kv, <[kv.1 := kv.2]> d) ∅
    (zip fieldnames
         (map Some row ++ replicate (length fieldnames - length row) None)).

(** The rows the reader yields after the header: empty records are
    skipped. *)
Definition dict_rows (fieldnames : list string) (records : list (list string))
  : list (gmap string (option string)) :=
  map (dict_row fieldnames) (filter (λ r, r ≠ []) records).

(** [row.get(k)] *)
Definition row_get (row : gmap string (option string)) (k : string)
  : option string :=
  match row !! k with
  | Some v => v
  | None => None
  end.

(** [row[k]] *)
Definition row_item (row : gmap string (option string)) (k : string)
  : M (option string) :=
  match row !! k with
  | Some v => ret v
  | None => raise (KeyError k)
  end.

(** [DictWriter._dict_to_list]: a key that is not a field name raises,
    a missing key gives the empty string. *)
Definition dict_to_list (fieldnames : list string)
    (rowdict : list (string * pyval)) : M (list string) :=
  if forallb (λ kv, Py.str_in kv.1 fieldnames) rowdict
  then ret (map (λ k, match assoc k rowdict with
                      | Some v => csv_of_pyval v
                      | None => ""
                      end) fieldnames)
  else raise ValueError.

(** ** import_chatroom *)

Definition thread_column_variants : list string :=
  ["thread_id"; "thread"; "thread_num"; "thread_number"].

(** The first variant that is a header. *)
Definition detect_thread_column (headers : list string) : option string :=
  List.find (λ variant, bool_decide (variant ∈ headers))
            thread_column_variants.

(** The existing thread of a row: the stripped value of the thread
    column, unless it is missing, empty, or one of the null spellings. *)
Definition existing_thread_of (thread_column : option string)
    (row : gmap string (option string)) : option string :=
  match thread_column with
  | Some col =>
      if Py.truthy_str col && Py.truthy (row_get row col) then
        let existing_thread := Py.strip (default "" (row_get row col)) in
        if Py.str_in (Py.lower existing_thread) [""; "none"; "null"]
        then None else Some existing_thread
      else None
  | None => None
  end.

(** The body of the csv loop. *)
Definition turn_of_row (file_path : string) (thread_column : option string)
    (row : gmap string (option string)) : M DisentangledTurn :=
  let existing_thread := existing_thread_of thread_column row in
  let* u := row_item row "user_id" in
  let* i := row_item row "turn_id" in
  let* x := row_item row "turn_text" in
  let* ts := (if Py.truthy existing_thread
              then (let* d := now in ret (Some d)) else ret None) in
  match u, i, x with
  | Some u, Some i, Some x =>
      ret {| user_id := u; turn_id := i; turn_text := x;
             reply_to_turn := row_get row "reply_to_turn";
             thread_id := existing_thread;
             annotator_id :=
               if Py.truthy existing_thread then Some "imported" else None;
             annotation_timestamp := ts;
             annotation_notes :=
               if Py.truthy existing_thread
               then Some ("Imported from " ++ file_path) else None |}
  | _, _, _ => raise ValidationError
  end.

Definition import_csv (file_path : string) : M (list DisentangledTurn) :=
  let* file := read_file file_path in
  match csv_reader file with
  | [] => raise TypeError
  | headers :: records =>
      let thread_column := detect_thread_column headers in
      for_each (turn_of_row file_path thread_column)
               (dict_rows headers records)
  end.

(** [data['turns']] *)
Definition json_item (data : json) (k : string) : M json :=
  match data with
  | JObj obj =>
      match assoc k obj with
      | Some v => ret v
      | None => raise (KeyError k)
      end
  | _ => raise TypeError
  end.

(** What [for turn_data in v] iterates over: the items of a list, the
    keys of a dict, the characters of a string. *)
Definition json_iter (v : json) : M (list json) :=
  match v with
  | JArr items => ret items
  | JObj obj => ret (map (λ kv, JStr kv.1) obj)
  | JStr s => ret (map (λ c, JStr (String c "")) (list_ascii_of_string s))
  | _ => raise TypeError
  end.

(** The body of the json loop. *)
Definition turn_of_json (file_path : string) (turn_data : json)
  : M DisentangledTurn :=
  match parse_turn turn_data with
  | None => raise ValidationError
  | Some turn =>
      if Py.truthy (thread_id turn) then
        let* ts := (match annotation_timestamp turn with
                    | Some d => ret (Some d)
                    | None => let* d := now in ret (Some d)
                    end) in
        ret {| user_id := user_id turn; turn_id := turn_id turn;
               turn_text := turn_text turn;
               reply_to_turn := reply_to_turn turn;
               thread_id := thread_id turn;
               annotator_id := Py.str_or (annotator_id turn) "imported";
               annotation_timestamp := ts;
               annotation_notes :=
                 Py.str_or (annotation_notes turn)
                           ("Imported from " ++ file_path) |}
      else ret turn
  end.

Definition import_json (file_path : string) : M (list DisentangledTurn) :=
  let* file := read_file file_path in
  match json_load file with
  | None => raise JSONDecodeError
  | Some data =>
      let* v := json_item data "turns" in
      let* items := json_iter v in
      for_each (turn_of_json file_path) items
  end.

Record ImportResult : Type := {
  import_message : string;
  total_turns : nat;
  pre_annotated_turns : nat
}.

(** [sum(1 for turn in turns if turn.thread_id is not None)] *)
Definition count_annotated (ts : list DisentangledTurn) : nat :=
  length (filter (λ t, thread_id t ≠ None) ts).

Definition import_chatroom (file_path : string) (format : string)
  : M ImportResult :=
  let* turns := (if format =? "csv" then import_csv file_path
                 else import_json file_path) in
  let room_id := Path.stem file_path in
  let chat_room := {| room_id := room_id; turns := turns |} in
  let* rooms := get_rooms in
  set_rooms (<[room_id := chat_room]> rooms) ;;
  _save_room chat_room ;;
  ret {| import_message := "Successfully imported chat room " ++ room_id;
         total_turns := length turns;
         pre_annotated_turns := count_annotated turns |}.

(** ** export_chatroom *)

Definition export_fieldnames : list string :=
  ["user_id"; "turn_id"; "turn_text"; "reply_to_turn";
   "thread_id"; "annotator_id"; "annotation_timestamp"; "annotation_notes"].

Definition export_chatroom (room_id : string) (format : string)
    (output_path : option string) : M string :=
  let* rooms := get_rooms in
  match rooms !! room_id with
  | None => raise (HTTPException 404 "Chat room not found")
  | Some chat_room =>
      let output_path :=
        match output_path with
        | None => Path.join data_dir ("export_" ++ room_id ++ "." ++ format)
        | Some p => p
        end in
      (if format =? "csv" then
         let* rows := for_each (λ turn,
                        dict_to_list export_fieldnames (turn_dict turn))
                        (turns chat_room) in
         write_file output_path (csv_writer (export_fieldnames :: rows))
       else
         write_file output_path (json_dump (Some 2) (room_json chat_room)));;
      ret output_path
  end.

(** ** get_chatroom *)

Definition get_chatroom (room_id : string) : M DisentanglementChatRoom :=
  let* rooms := get_rooms in
  match rooms !! room_id with
  | None => raise (HTTPException 404 "Chat room not found")
  | Some chat_room => ret chat_room
  end.

(** ** annotate_turn *)

Record AnnotateResult : Type := {
  annotate_message : string;
  annotate_timestamp : datetime
}.

(** The four assignments to the fields of the turn. *)
Definition set_annotation (turn : DisentangledTurn)
    (thread : option string) (annotator : string) (d : datetime)
    (notes : option string) : DisentangledTurn :=
  {| user_id := user_id turn; turn_id := turn_id turn;
     turn_text := turn_text turn; reply_to_turn := reply_to_turn turn;
     thread_id := thread;
     annotator_id := Some annotator;
     annotation_timestamp := Some d;
     annotation_notes := notes |}.

(** The loop over the turns of the room stored under [key]: [seen] are
    the turns already passed, [rest] the turns still to visit. *)
Fixpoint annotate_loop (key : string) (chat_room : DisentanglementChatRoom)
    (tid annotator : string) (thread notes : option string)
    (seen rest : list DisentangledTurn) : M AnnotateResult :=
  match rest with
  | [] => raise (HTTPException 404 "Turn not found")
  | turn :: rest' =>
      if turn_id turn =? tid then
        let* d := now in
        let turn' := set_annotation turn thread annotator d notes in
        let chat_room' := {| room_id := room_id chat_room;
                             turns := seen ++ turn' :: rest' |} in
        let* rooms := get_rooms in
        set_rooms (<[key := chat_room']> rooms) ;;
        _save_room chat_room' ;;
        ret {| annotate_message := "Turn " ++ tid ++ " annotated";
               annotate_timestamp := d |}
      else
        annotate_loop key chat_room tid annotator thread notes
                      (seen ++ [turn]) rest'
  end.

Definition annotate_turn (room_id turn_id annotator_id : string)
    (thread_id annotation_notes : option string) : M AnnotateResult :=
  let* rooms := get_rooms in
  match rooms !! room_id with
  | None => raise (HTTPException 404 "Chat room not found")
  | Some chat_room =>
      annotate_loop room_id chat_room turn_id annotator_id
                    thread_id annotation_notes [] (turns chat_room)
  end.

(** ** get_thread_summary *)

Record ThreadSummary : Type := {
  summary_room_id : string;
  summary_thread_count : nat;
  summary_threads : gmap string (list string)
}.

(** One pass of the loop body over the [threads] dict. *)
Definition group_step (threads : gmap string (list string))
    (turn : DisentangledTurn) : gmap string (list string) :=
  match thread_id turn with
  | Some th =>
      if Py.truthy_str th then
        let threads1 :=
          match threads !! th with
          | None => <[th := []]> threads
          | Some _ => threads
          end in
        <[th := (default [] (threads1 !! th) ++ [turn_id turn])%list]> threads1
      else threads
  | None => threads
  end.

Definition group_threads (ts : list DisentangledTurn)
  : gmap string (list string) :=
  foldl group_step ∅ ts.

Definition get_thread_summary (room_id : string) : M ThreadSummary :=
  let* rooms := get_rooms in
  match rooms !! room_id with
  | None => raise (HTTPException 404 "Chat room not found")
  | Some chat_room =>
      let threads := group_threads (turns chat_room) in
      ret {| summary_room_id := room_id;
             summary_thread_count := size threads;
             summary_threads := threads |}
  end.

(** ** list_chatrooms *)

Record RoomSummary : Type := {
  list_room_id : string;
  turn_count : nat;
  annotated_turns : nat;
  thread_count : nat
}.

(** [set(turn.thread_id for turn in turns if turn.thread_id is not None)] *)
Definition thread_set (ts : list DisentangledTurn) : gset string :=
  list_to_set (omap thread_id ts).

Definition room_summary (room_id : string) (room : DisentanglementChatRoom)
  : RoomSummary :=
  {| list_room_id := room_id;
     turn_count := length (turns room);
     annotated_turns := count_annotated (turns room);
     thread_count := size (thread_set (turns room)) |}.

(** The summaries of all rooms; the order of the items of the dict is not
    modelled. *)
Definition list_chatrooms : M (list RoomSummary) :=
  let* rooms := get_rooms in
  ret (map (λ kv, room_summary kv.1 kv.2) (map_to_list rooms)).

(** ** delete_chatroom *)

Definition delete_chatroom (room_id : string) : M string :=
  let* rooms := get_rooms in
  match rooms !! room_id with
  | None => raise (HTTPException 404 "Chat room not found")
  | Some _ =>
      set_rooms (delete room_id rooms) ;;
      unlink_if_exists (Path.join data_dir (room_id ++ ".json")) ;;
      ret ("Chat room " ++ room_id ++ " deleted successfully")
  end.

(** ** Requests and reachable states *)

Inductive request : Type :=
  | Import (file_path format : string)
  | Annotate (room_id turn_id annotator_id : string)
             (thread_id annotation_notes : option string)
  | Delete (room_id : string).

(** The state after a request, whether it returned or raised. *)
Definition handle (r : request) (s : State) : State :=
  match r with
  | Import file_path format => (import_chatroom file_path format s).2
  | Annotate rid tid annotator thread notes =>
      (annotate_turn rid tid annotator thread notes s).2
  | Delete rid => (delete_chatroom rid s).2
  end.

(** The states along a run, the first one included. *)
Fixpoint states (s : State) (rs : list request) : list State :=
  s :: match rs with
       | [] => []
       | r :: rs' => states (handle r s) rs'
       end.

(** The service starts with no room; between two requests the files of
    the environment may change. *)
Inductive reachable : State → Prop :=
  | reachable_start files c :
      reachable {| disentanglement_rooms := ∅; fs := files; clock := c |}
  | reachable_handle r s :
      reachable s → reachable (handle r s)
  | reachable_files files s :
      reachable s →
      reachable {| disentanglement_rooms := disentanglement_rooms s;
                   fs := files; clock := clock s |}.

(** The first turn of a stored room with a given id. *)
Definition turn_at (s : State) (rid tid : string) : option DisentangledTurn :=
  room ← disentanglement_rooms s !! rid;
  List.find (λ t, turn_id t =? tid) (turns room).

(** ** Notions used to state the properties *)

(** The record the csv writer gets for a turn. *)
Definition export_row (t : DisentangledTurn) : list string :=
  [ user_id t; turn_id t; turn_text t;
    default "" (reply_to_turn t);
    default "" (thread_id t);
    default "" (annotator_id t);
    from_option datetime_str "" (annotation_timestamp t);
    default "" (annotation_notes t) ].

(** The ids of the turns assigned to a thread, in room order. *)
Definition turns_of_thread (th : string) (ts : list DisentangledTurn)
  : list string :=
  turn_id <$> filter (λ t, thread_id t = Some th) ts.

(** A base name and an extension: neither is empty or holds a slash,
    and the extension holds no dot. *)
Definition is_file_name (base ext : string) : Prop :=
  base ≠ "" ∧ ext ≠ ""
  ∧ Py.contains "/" base = false ∧ Py.contains "/" ext = false
  ∧ Py.contains "." ext = false.

(** An action that does not look at the rooms and changes nothing but
    the clock. *)
Definition reads_only {A} (m : M A) : Prop :=
  ∀ files c, ∃ a k, ∀ rooms,
    m {| disentanglement_rooms := rooms; fs := files; clock := c |} =
      (a, {| disentanglement_rooms := rooms; fs := files; clock := c + k |}).

(** The value a row holds in the detected thread column, if a column
    was detected and the row reaches it. *)
Definition thread_value (headers : list string)
    (row : gmap string (option string)) : option string :=
  col ← detect_thread_column headers; row_get row col.

(** Stripped of surrounding whitespace, the value is not empty and is
    not a spelling of none or null. *)
Definition usable_thread (v : string) : bool :=
  negb (Py.str_in (Py.lower (Py.strip v)) [""; "none"; "null"]).

(** The four annotation fields are null. *)
Definition unannotated (t : DisentangledTurn) : Prop :=
  thread_id t = None ∧ annotator_id t = None
  ∧ annotation_timestamp t = None ∧ annotation_notes t = None.

(** A turn with a non-empty thread id has a non-empty annotator, a
    timestamp and non-empty notes: what the JSON import leaves as it
    finds it. *)
Definition annotation_complete (t : DisentangledTurn) : bool :=
  implb (Py.truthy (thread_id t))
        (Py.truthy (annotator_id t)
         && bool_decide (annotation_timestamp t ≠ None)
         && Py.truthy (annotation_notes t)).

(** A turn with a non-empty thread id names its annotator and carries
    the time of its annotation. *)
Definition thread_annotated (t : DisentangledTurn) : Prop :=
  Py.truthy (thread_id t) = true →
  annotator_id t ≠ None ∧ annotation_timestamp t ≠ None.

Definition rooms_annotated (rooms : gmap string DisentanglementChatRoom)
  : Prop :=
  ∀ rid room, rooms !! rid = Some room → Forall thread_annotated (turns room).

End Model.

(** * The rest of the service *)

(** [s.endswith(suffix)] *)
Definition endswith (suffix s : string) : bool :=
  suffix =? String.substring (String.length s - String.length suffix)
                             (String.length suffix) s.

(** A path that [self.data_dir.glob("*.json")] can yield: a name in the
    data directory that ends in [.json]. *)
Definition in_data_dir_json (p : string) : bool :=
  let prefix := "data/chatrooms/" in
  let name := String.substring (String.length prefix)
                (String.length p - String.length prefix) p in
  Py.startswith prefix p && negb (Py.contains "/" name)
  && endswith ".json" name.

Section Startup.

Context {R : Runtime}.

(** The turns that carry a non-empty thread id. *)
Definition threaded_turns (ts : list DisentangledTurn)
  : list DisentangledTurn :=
  filter (λ t, Py.truthy (thread_id t) = true) ts.

(** The number of turn ids held by the groups of a summary. *)
Definition grouped_turns (threads : gmap string (list string)) : nat :=
  map_fold (λ _ ids n, length ids + n) 0 threads.

(** The file of a room: [self.data_dir / f"{room_id}.json"]. *)
Definition room_file (rid : string) : string :=
  Path.join data_dir (rid ++ ".json").

Local Notation "'let*' x := m 'in' k" := (bind m (λ x, k))
  (at level 10, x name, m at level 100, k at level 200).

(** [DisentanglementChatRoom.parse_obj(data)]; [None] when validation
    fails: the room id is a required string and the turns are a required
    list of turns. *)
Definition parse_room (data : json) : option DisentanglementChatRoom :=
  match data with
  | JObj obj =>
      rid ← required_str obj "room_id";
      ts ← match assoc "turns" obj with
           | Some (JArr items) => mapM parse_turn items
           | _ => None
           end;
      Some {| room_id := rid; turns := ts |}
  | _ => None
  end.

(** The json files of the data directory, in some order. *)
Definition data_dir_json_files (files : gmap string text) : list string :=
  filter (λ p, in_data_dir_json p = true) (elements (dom files)).

(** The loop of [_load_rooms] over the files that the glob yields, in
    the order it yields them; [rooms] is the dict built so far. *)
Fixpoint load_loop (paths : list string)
    (rooms : gmap string DisentanglementChatRoom)
  : M (gmap string DisentanglementChatRoom) :=
  match paths with
  | [] => ret rooms
  | file :: paths' =>
      let* f := read_file file in
      match json_load f with
      | None => raise JSONDecodeError
      | Some data =>
          match parse_room data with
          | None => raise ValidationError
          | Some room => load_loop paths' (<[room_id room := room]> rooms)
          end
      end
  end.

(** [_load_rooms], for the order [paths] in which the glob yields the
    files. *)
Definition _load_rooms (paths : list string)
  : M (gmap string DisentanglementChatRoom) :=
  load_loop paths ∅.

(** [__init__]: the rooms of the new service are the loaded rooms. *)
Definition __init__ (paths : list string) : M unit :=
  let* rooms := _load_rooms paths in
  set_rooms rooms.

(** Every stored room is stored under its own id, which holds no slash,
    and its file holds it as [_save_room] writes it. *)
Definition persisted (s : State) : Prop :=
  ∀ rid room,
    disentanglement_rooms s !! rid = Some room →
    room_id room = rid
    ∧ Py.contains "/" rid = false
    ∧ fs s !! room_file rid = Some (json_dump None (room_json room)).

(** The states the service reaches from an empty store by imports,
    annotations and deletions when nothing else writes files. *)
Inductive served : State → Prop :=
  | served_start files c :
      served {| disentanglement_rooms := ∅; fs := files; clock := c |}
  | served_handle r s : served s → served (handle r s).

End Startup.

(** ** A concrete runtime, for running the model on examples

    A datetime is its text, a file is the records or the document it
    holds, and the clock returns a fixed sequence of instants. *)

Module Demo.

Inductive content : Type :=
  | CsvText (records : list (list string))
  | JsonText (doc : json).

Definition instants : list string :=
  ["2024-05-01 10:00:00"; "2024-05-01 10:00:01"; "2024-05-01 10:00:02";
   "2024-05-01 10:00:03"].

Definition runtime : Runtime :=
  {| datetime := string;
     datetime_str := λ d, d;
     datetime_now := λ k, nth k instants "2024-05-01 11:00:00";
     text := content;
     csv_reader := λ f, match f with CsvText r => r | JsonText _ => [] end;
     csv_writer := CsvText;
     json_load := λ f, match f with JsonText d => Some d | CsvText _ => None end;
     json_dump := λ _ d, JsonText d;
     str_validator := λ v, match v with JStr s => Some s | _ => None end;
     datetime_validator :=
       λ v, match v with JStr s => Some s | _ => None end |}.

#[local] Existing Instance runtime.

(** A turn that was never annotated. *)
Definition plain (u i x : string) : DisentangledTurn :=
  {| user_id := u; turn_id := i; turn_text := x; reply_to_turn := None;
     thread_id := None; annotator_id := None;
     annotation_timestamp := None; annotation_notes := None |}.

(** A turn assigned to a thread by an annotator. *)
Definition threaded (u i x th : string) (notes : option string)
  : DisentangledTurn :=
  {| user_id := u; turn_id := i; turn_text := x; reply_to_turn := None;
     thread_id := Some th; annotator_id := Some "ann";
     annotation_timestamp := Some "2024-04-30 09:00:00";
     annotation_notes := notes |}.

Definition store_of (room : DisentanglementChatRoom) : State :=
  {| disentanglement_rooms := {[ room_id room := room ]};
     fs := ∅; clock := 0 |}.

Definition room_r1 : DisentanglementChatRoom :=
  {| room_id := "r1";
     turns := [plain "u1" "t1" "hello"; plain "u2" "t2" "hi there"] |}.

(** The room of the example of the specification: t1 and t3 in thread
    A, t2 in thread B, t4 in no thread. *)
Definition room_ab : DisentanglementChatRoom :=
  {| room_id := "ab";
     turns := [threaded "u1" "t1" "one" "A" None;
               threaded "u2" "t2" "two" "B" None;
               threaded "u1" "t3" "three" "A" None;
               plain "u2" "t4" "four"] |}.

(** A turn whose thread id is the empty string, as a JSON import or an
    annotation with an empty thread id leaves it. *)
Definition blank_thread (u i x : string) : DisentangledTurn :=
  {| user_id := u; turn_id := i; turn_text := x; reply_to_turn := None;
     thread_id := Some ""; annotator_id := Some "ann";
     annotation_timestamp := Some "2024-04-30 09:00:00";
     annotation_notes := None |}.

Definition room_blank : DisentanglementChatRoom :=
  {| room_id := "blank";
     turns := [threaded "u1" "t1" "one" "A" None;
               blank_thread "u2" "t2" "two"] |}.

(** An upload in csv: one row with a thread, one with an empty thread
    column. *)
Definition room1_csv : content :=
  CsvText [ ["user_id"; "turn_id"; "turn_text"; "thread_id"];
            ["u1"; "t1"; "hello"; "T1"];
            ["u2"; "t2"; "hi there"; ""] ].

(** An upload in JSON: one turn with a thread and no annotation data, one
    turn with no thread. *)
Definition chat_json : content :=
  JsonText
    (JObj [ ("room_id", JStr "chat");
            ("turns",
             JArr [ JObj [ ("user_id", JStr "u1"); ("turn_id", JStr "t1");
                           ("turn_text", JStr "hello");
                           ("thread_id", JStr "T1") ];
                    JObj [ ("user_id", JStr "u2"); ("turn_id", JStr "t2");
                           ("turn_text", JStr "hi there") ] ]) ]).

(** A service that has just started on an empty data directory, with the
    two uploads in place. *)
Definition uploads : State :=
  {| disentanglement_rooms := ∅;
     fs := {[ "uploads/room1.csv" := room1_csv;
              "uploads/chat.json" := chat_json ]};
     clock := 0 |}.

(** An upload in csv whose thread column holds two spaces in the first
    row and a padded thread id in the second. *)
Definition spaced : State :=
  {| disentanglement_rooms := ∅;
     fs := {[ "uploads/spaced.csv" :=
                CsvText [ ["user_id"; "turn_id"; "turn_text"; "thread_id"];
                          ["u1"; "t1"; "hello"; "  "];
                          ["u2"; "t2"; "hi there"; " T1 "] ] ]};
     clock := 0 |}.

(** A room whose annotated turn carries notes. *)
Definition room_noted : DisentanglementChatRoom :=
  {| room_id := "noted";
     turns := [threaded "u1" "t1" "one" "A" (Some "starts the thread");
               plain "u2" "t2" "two"] |}.

(** The csv upload is imported, then its second turn, which has no
    thread, is annotated without a thread id. *)
Definition annotate_without_thread : list request :=
  [ Import "uploads/room1.csv" "csv";
    Annotate "room1" "t2" "ann" None None ].

End Demo.

Module Demo2.

#[local] Existing Instance Demo.runtime.

(** The store after the csv upload was imported. *)
Definition imported : State :=
  handle (Import "uploads/room1.csv" "csv") Demo.uploads.

End Demo2.

(** * Properties *)

Local Open Scope list_scope.

Section Properties.

Context {R : Runtime}.

Implicit Types (s : State) (room : DisentanglementChatRoom).
Implicit Types (t turn : DisentangledTurn) (ts : list DisentangledTurn).

(** Runs the monad of the operations. *)
Ltac run :=
  unfold bind, ret, raise, get_rooms, set_rooms, write_file, set_fs,
    _save_room, now; simpl.

(** ** annotate_turn *)

Lemma annotate_loop_found key room tid annotator thread notes rest :
  ∀ seen s,
    (∃ t, t ∈ rest ∧ turn_id t = tid) →
    ∃ pre turn post,
      rest = pre ++ turn :: post ∧
      Forall (λ t, turn_id t ≠ tid) pre ∧
      turn_id turn = tid ∧
      let d := datetime_now (clock s) in
      let room' :=
        {| room_id := room_id room;
           turns := (seen ++ pre)
                    ++ set_annotation turn thread annotator d notes :: post |}
      in
      annotate_loop key room tid annotator thread notes seen rest s =
        (inr {| annotate_message := "Turn " +:+ tid +:+ " annotated";
                annotate_timestamp := d |},
         {| disentanglement_rooms :=
              <[key := room']> (disentanglement_rooms s);
            fs := <[Path.join data_dir (room_id room +:+ ".json") :=
                      json_dump None (room_json room')]> (fs s);
            clock := S (clock s) |}).
Proof.
  induction rest as [|turn rest IH]; intros seen s [t [Hin Hid]].
  - by apply elem_of_nil in Hin.
  - simpl. destruct (String.eqb_spec (turn_id turn) tid) as [Heq|Hne].
    + exists [], turn, rest. rewrite app_nil_r.
      split; [done|]. split; [constructor|]. split; [done|]. by run.
    + assert (∃ t', t' ∈ rest ∧ turn_id t' = tid) as Hex.
      { apply elem_of_cons in Hin as [->|Hin]; [done | eauto]. }
      destruct (IH (seen ++ [turn]) s Hex)
        as (pre & turn' & post & -> & Hpre & Hid' & Hrun).
      exists (turn :: pre), turn', post.
      split; [done|]. split; [by constructor|]. split; [done|].
      simpl in Hrun |- *. rewrite Hrun.
      by rewrite <- (app_assoc seen [turn] pre).
Qed.


(** ** delete_chatroom *)

(** What [delete_chatroom] returns and the state it leaves. *)
Lemma delete_chatroom_run s rid :
  match disentanglement_rooms s !! rid with
  | None => delete_chatroom rid s = (inl NotFoundError, s)
  | Some _ =>
      delete_chatroom rid s =
        (inr ("Chat room " +:+ rid +:+ " deleted successfully"),
         {| disentanglement_rooms := delete rid (disentanglement_rooms s);
            fs := delete (Path.join data_dir (rid +:+ ".json")) (fs s);
            clock := clock s |})
  end.
Proof.
  unfold delete_chatroom, unlink_if_exists. run.
  destruct (disentanglement_rooms s !! rid) as [room|]; [|by destruct s].
  destruct (fs s !! _) eqn:Hfile; simpl; [done|].
  by rewrite (delete_id (fs s)).
Qed.

(** C7.  [delete_chatroom] raises the not-found failure when the room is
    not stored.  When it is stored, the call succeeds whether or not the
    backing file exists: the room leaves the mapping, the backing file is
    gone, and a [get_chatroom] of the same id on the resulting state
    raises the not-found failure. *)
Theorem delete_chatroom_then_get s rid :
  match disentanglement_rooms s !! rid with
  | None => delete_chatroom rid s = (inl NotFoundError, s)
  | Some _ =>
      let file_path := Path.join data_dir (rid +:+ ".json") in
      let s' := {| disentanglement_rooms :=
                     delete rid (disentanglement_rooms s);
                   fs := delete file_path (fs s);
                   clock := clock s |} in
      delete_chatroom rid s =
        (inr ("Chat room " +:+ rid +:+ " deleted successfully"), s')
      ∧ disentanglement_rooms s' !! rid = None
      ∧ fs s' !! file_path = None
      ∧ get_chatroom rid s' = (inl NotFoundError, s')
  end.
Proof.
  pose proof (delete_chatroom_run s rid) as Hrun.
  destruct (disentanglement_rooms s !! rid) as [room|]; [|done].
  split; [done|]. split; [apply lookup_delete_eq|].
  split; [apply lookup_delete_eq|].
  unfold get_chatroom. run. by rewrite lookup_delete_eq.
Qed.

(** ** export_chatroom *)

Lemma export_rows ts s :
  for_each (λ turn, dict_to_list export_fieldnames (turn_dict turn)) ts s =
    (inr (map export_row ts), s).
Proof.
  induction ts as [|t ts IH]; [done|].
  simpl. unfold bind at 1. unfold dict_to_list at 1. simpl.
  unfold bind. rewrite IH. unfold ret, export_row.
  by destruct (reply_to_turn t), (thread_id t), (annotator_id t),
    (annotation_timestamp t), (annotation_notes t).
Qed.

(** What [export_chatroom] returns and the state it leaves. *)
Lemma export_chatroom_run s rid format output_path :
  match disentanglement_rooms s !! rid with
  | None =>
      export_chatroom rid format output_path s = (inl NotFoundError, s)
  | Some room =>
      let destination :=
        default (Path.join data_dir
                   ("export_" +:+ rid +:+ "." +:+ format)) output_path in
      let written :=
        if format =? "csv" then
          csv_writer (export_fieldnames :: map export_row (turns room))
        else json_dump (Some 2) (room_json room) in
      export_chatroom rid format output_path s =
        (inr destination,
         {| disentanglement_rooms := disentanglement_rooms s;
            fs := <[destination := written]> (fs s);
            clock := clock s |})
  end.
Proof.
  unfold export_chatroom. run.
  destruct (disentanglement_rooms s !! rid) as [room|]; [|by destruct s].
  destruct (format =? "csv").
  - rewrite export_rows. by destruct output_path.
  - by destruct output_path.
Qed.


(** ** get_thread_summary and list_chatrooms *)

Lemma group_step_lookup acc t th :
  group_step acc t !! th =
    if decide (thread_id t = Some th ∧ th ≠ "")
    then Some (default [] (acc !! th) ++ [turn_id t])
    else acc !! th.
Proof.
  unfold group_step.
  destruct (thread_id t) as [th'|]; [|by case_decide as H; [destruct H|]].
  unfold Py.truthy_str.
  destruct (String.eqb_spec th' "") as [->|Hne]; simpl.
  { case_decide as H; [|done]. destruct H as [[= <-] ?]. done. }
  destruct (decide (th' = th)) as [->|Hth].
  - rewrite decide_True by done. rewrite lookup_insert_eq.
    destruct (acc !! th) eqn:Hacc; simpl; [by rewrite Hacc|].
    by rewrite lookup_insert_eq.
  - rewrite decide_False by (intros [[= ?] _]; done).
    rewrite lookup_insert_ne by done.
    destruct (acc !! th'); [done|]. by rewrite lookup_insert_ne.
Qed.

Lemma group_foldl_lookup ts : ∀ acc th,
  foldl group_step acc ts !! th =
    if decide (th = "") then acc !! th
    else match turns_of_thread th ts with
         | [] => acc !! th
         | l => Some (default [] (acc !! th) ++ l)
         end.
Proof.
  induction ts as [|t ts IH]; intros acc th; simpl.
  { by case_decide. }
  rewrite IH, group_step_lookup. unfold turns_of_thread.
  destruct (decide (th = "")) as [->|Hne].
  { rewrite decide_False by (intros [_ ?]; done). done. }
  destruct (decide (thread_id t = Some th)) as [Hth|Hth].
  - rewrite decide_True by done. rewrite filter_cons_True by done.
    rewrite fmap_cons.
    destruct (turn_id <$> filter _ ts) as [|x l]; simpl; [done|].
    by rewrite <- app_assoc.
  - rewrite decide_False by (intros [? _]; done).
    by rewrite filter_cons_False by done.
Qed.

Lemma turns_of_thread_nil th ts :
  turns_of_thread th ts = [] ↔ Some th ∉ thread_id <$> ts.
Proof.
  unfold turns_of_thread. induction ts as [|t ts IH]; simpl.
  { split; [intros _ H; by apply elem_of_nil in H | done]. }
  rewrite not_elem_of_cons.
  destruct (decide (thread_id t = Some th)) as [Hth|Hth].
  - rewrite filter_cons_True by done. simpl. split; [done|].
    intros [Hne _]. by destruct Hne.
  - rewrite filter_cons_False by done. rewrite IH.
    split; [intros ?; split; [congruence|done] | by intros [_ ?]].
Qed.

(** What the loop of [get_thread_summary] computes: a thread id is a key
    when it is not empty and some turn carries it, and its value is the
    list of the ids of these turns in room order. *)
Lemma group_threads_lookup ts th :
  group_threads ts !! th =
    if decide (th ≠ "" ∧ Some th ∈ thread_id <$> ts)
    then Some (turns_of_thread th ts) else None.
Proof.
  unfold group_threads. rewrite group_foldl_lookup, lookup_empty.
  destruct (decide (th = "")) as [->|Hne].
  { by rewrite decide_False by (intros [? _]; done). }
  destruct (turns_of_thread th ts) as [|x l] eqn:Hl.
  - apply turns_of_thread_nil in Hl.
    by rewrite decide_False by (intros [_ ?]; done).
  - rewrite decide_True; [done|]. split; [done|].
    destruct (decide (Some th ∈ thread_id <$> ts)) as [|Hn]; [done|].
    apply turns_of_thread_nil in Hn. congruence.
Qed.

Lemma elem_of_thread_set th ts :
  th ∈ thread_set ts ↔ Some th ∈ thread_id <$> ts.
Proof.
  unfold thread_set. rewrite elem_of_list_to_set, list_elem_of_omap.
  rewrite list_elem_of_fmap.
  split; intros (t & ? & ?); exists t; split; congruence.
Qed.

Lemma dom_group_threads ts :
  dom (group_threads ts) = thread_set ts ∖ {[""]}.
Proof.
  apply set_eq. intros th.
  rewrite elem_of_dom, group_threads_lookup, elem_of_difference.
  rewrite elem_of_thread_set, not_elem_of_singleton.
  case_decide as H.
  - split; [intros _; tauto | eauto].
  - split; [by intros [? ?] | tauto].
Qed.

(** C2, as the code has it.  [get_thread_summary] raises the not-found
    failure when the room is not stored.  For a stored room it returns the
    room id, the mapping that sends every non-empty thread id carried by
    some turn to the ids of the turns carrying it, in room order, and the
    number of these thread ids; turns whose thread id is missing or is
    the empty string are ignored. *)
Theorem get_thread_summary_groups s rid :
  match disentanglement_rooms s !! rid with
  | None => get_thread_summary rid s = (inl NotFoundError, s)
  | Some room =>
      ∃ threads,
        get_thread_summary rid s =
          (inr {| summary_room_id := rid;
                  summary_thread_count :=
                    size (thread_set (turns room) ∖ {[""]});
                  summary_threads := threads |}, s)
        ∧ ∀ th, threads !! th =
                  if decide (th ≠ "" ∧ Some th ∈ thread_id <$> turns room)
                  then Some (turns_of_thread th (turns room)) else None
  end.
Proof.
  unfold get_thread_summary. run.
  destruct (disentanglement_rooms s !! rid) as [room|]; [|done].
  exists (group_threads (turns room)). split.
  - by rewrite <- dom_group_threads, size_dom.
  - intros th. apply group_threads_lookup.
Qed.

Lemma count_annotated_middle pre t post :
  thread_id t ≠ None →
  count_annotated (pre ++ t :: post) = S (count_annotated (pre ++ post)).
Proof.
  intros Ht. unfold count_annotated.
  rewrite !filter_app, filter_cons_True by done.
  rewrite !length_app. simpl. lia.
Qed.

Lemma group_threads_skip_empty pre t post :
  thread_id t = Some "" →
  group_threads (pre ++ t :: post) = group_threads (pre ++ post).
Proof.
  intros Ht. unfold group_threads. rewrite !foldl_app. simpl.
  unfold group_step at 2. by rewrite Ht.
Qed.

(** C10.  A turn of a stored room whose thread id is the empty string is
    one of the annotated turns that [list_chatrooms] counts, and the empty
    string is one of the thread ids it counts; [get_thread_summary] has no
    key for it and returns what it returns for the room without that
    turn; so the thread count of [list_chatrooms] for the room is one
    more than the thread count of [get_thread_summary]. *)
Theorem empty_thread_id_listed_not_summarised s rid room pre t post :
  disentanglement_rooms s !! rid = Some room →
  turns room = pre ++ t :: post →
  thread_id t = Some "" →
  ∃ listed summary,
    list_chatrooms s = (inr listed, s)
    ∧ room_summary rid room ∈ listed
    ∧ annotated_turns (room_summary rid room) =
        S (count_annotated (pre ++ post))
    ∧ "" ∈ thread_set (turns room)
    ∧ get_thread_summary rid s = (inr summary, s)
    ∧ summary_threads summary !! "" = None
    ∧ summary_threads summary = group_threads (pre ++ post)
    ∧ thread_count (room_summary rid room) =
        S (summary_thread_count summary)
    ∧ summary_thread_count summary < thread_count (room_summary rid room).
Proof.
  intros Hroom Hsplit Ht.
  assert ("" ∈ thread_set (turns room)) as Hin.
  { apply elem_of_thread_set. rewrite Hsplit, fmap_app, fmap_cons, Ht.
    apply elem_of_app. right. apply elem_of_cons. by left. }
  assert (size (thread_set (turns room)) =
          S (size (group_threads (turns room)))) as Hsize.
  { rewrite <- size_dom, dom_group_threads.
    rewrite (union_difference_singleton_L "" (thread_set (turns room)))
      at 1 by done.
    rewrite size_union, size_singleton; [done|].
    apply disjoint_singleton_l, not_elem_of_difference. right.
    by apply elem_of_singleton. }
  eexists _, _. unfold list_chatrooms, get_thread_summary. run.
  rewrite Hroom. split; [done|]. split.
  { apply (list_elem_of_fmap_2' _ _ (rid, room)); [|done].
    by apply elem_of_map_to_list. }
  split. { rewrite Hsplit. by apply count_annotated_middle; rewrite Ht. }
  split; [done|]. split; [done|]. simpl. split.
  { rewrite group_threads_lookup. by rewrite decide_False by (intros [? _]; done). }
  split. { rewrite Hsplit. by apply group_threads_skip_empty. }
  split; [done|]. lia.
Qed.

(** ** Reading the source of an import *)

Lemma reads_only_ret {A} (a : A) : reads_only (ret a).
Proof. intros files c. exists (inr a), 0. intros. by rewrite Nat.add_0_r. Qed.

Lemma reads_only_raise {A} e : reads_only (raise (A:=A) e).
Proof. intros files c. exists (inl e), 0. intros. by rewrite Nat.add_0_r. Qed.

Lemma reads_only_now : reads_only now.
Proof.
  intros files c. exists (inr (datetime_now c)), 1. intros.
  unfold now. simpl. by rewrite Nat.add_1_r.
Qed.

Lemma reads_only_read_file path : reads_only (read_file path).
Proof.
  intros files c. unfold read_file. simpl.
  destruct (files !! path) as [content|].
  - exists (inr content), 0. intros. by rewrite Nat.add_0_r.
  - exists (inl (FileNotFoundError path)), 0. intros.
    by rewrite Nat.add_0_r.
Qed.

Lemma reads_only_bind {A B} (m : M A) (f : A → M B) :
  reads_only m → (∀ a, reads_only (f a)) → reads_only (bind m f).
Proof.
  intros Hm Hf files c. destruct (Hm files c) as (a & k & Ha).
  destruct a as [e|a].
  - exists (inl e), k. intros. unfold bind. by rewrite Ha.
  - destruct (Hf a files (c + k)) as (b & k' & Hb).
    exists b, (k + k'). intros. unfold bind.
    by rewrite Ha, Hb, Nat.add_assoc.
Qed.

Lemma reads_only_for_each {A B} (f : A → M B) l :
  (∀ x, reads_only (f x)) → reads_only (for_each f l).
Proof.
  intros Hf. induction l as [|x l IH]; simpl.
  - apply reads_only_ret.
  - apply reads_only_bind; [done|]. intros y.
    apply reads_only_bind; [done|]. intros ys. apply reads_only_ret.
Qed.

Create HintDb reads_only discriminated.
Hint Resolve reads_only_ret reads_only_raise reads_only_now
  reads_only_read_file reads_only_bind reads_only_for_each : reads_only.

Lemma reads_only_row_item row k : reads_only (row_item row k).
Proof. unfold row_item. destruct (row !! k); auto with reads_only. Qed.

Lemma reads_only_turn_of_row file_path col row :
  reads_only (turn_of_row file_path col row).
Proof.
  unfold turn_of_row.
  do 3 (apply reads_only_bind; [apply reads_only_row_item|]; intros ?).
  apply reads_only_bind.
  - destruct (Py.truthy _); auto with reads_only.
  - intros ts. repeat case_match; auto with reads_only.
Qed.

Lemma reads_only_import_csv file_path : reads_only (import_csv file_path).
Proof.
  unfold import_csv. apply reads_only_bind; [auto with reads_only|].
  intros file. destruct (csv_reader file); [auto with reads_only|].
  apply reads_only_for_each. intros row. apply reads_only_turn_of_row.
Qed.

Lemma reads_only_turn_of_json file_path turn_data :
  reads_only (turn_of_json file_path turn_data).
Proof.
  unfold turn_of_json. destruct (parse_turn turn_data) as [turn|];
    [|auto with reads_only].
  destruct (Py.truthy _); [|auto with reads_only].
  apply reads_only_bind; [|auto with reads_only].
  destruct (annotation_timestamp turn); auto with reads_only.
Qed.

Lemma reads_only_import_json file_path : reads_only (import_json file_path).
Proof.
  unfold import_json. apply reads_only_bind; [auto with reads_only|].
  intros file. destruct (json_load file) as [data|]; [|auto with reads_only].
  apply reads_only_bind.
  { unfold json_item. repeat case_match; auto with reads_only. }
  intros v. apply reads_only_bind.
  { unfold json_iter. destruct v; auto with reads_only. }
  intros items. apply reads_only_for_each. intros x.
  apply reads_only_turn_of_json.
Qed.

(** ** The room id of an import: the stem of the source path *)

Lemma split_not_nil c x : Py.split c x ≠ [].
Proof.
  induction x as [|a x IH]; simpl; [done|].
  destruct (Ascii.eqb a c); [done|]. by destruct (Py.split c x).
Qed.

Lemma split_app c a b :
  Py.split c (a +:+ String c b) = Py.split c a ++ Py.split c b.
Proof.
  induction a as [|h a IH]; simpl.
  - by rewrite Ascii.eqb_refl.
  - rewrite IH. destruct (Ascii.eqb h c); [done|].
    pose proof (split_not_nil c a). by destruct (Py.split c a).
Qed.

Lemma split_without c x : Py.contains c x = false → Py.split c x = [x].
Proof.
  induction x as [|a x IH]; simpl; [done|].
  intros [Ha Hx]%orb_false_iff. by rewrite Ha, IH.
Qed.

Lemma contains_app c a b :
  Py.contains c (a +:+ b) = Py.contains c a || Py.contains c b.
Proof.
  induction a as [|h a IH]; simpl; [done|]. by rewrite IH, orb_assoc.
Qed.

Lemma rfind_last c a b :
  Py.contains c b = false → Py.rfind c (a +:+ String c b) = Some (String.length a).
Proof.
  intros Hb. induction a as [|h a IH]; simpl.
  - assert (Py.rfind c b = None) as ->.
    { clear -Hb. induction b as [|h b IH]; simpl in *; [done|].
      apply orb_false_iff in Hb as [Hh Hb]. by rewrite IH, Hh. }
    by rewrite Ascii.eqb_refl.
  - by rewrite IH.
Qed.

Lemma substring_prefix a b : String.substring 0 (String.length a) (a +:+ b) = a.
Proof.
  induction a as [|h a IH]; simpl; [by destruct b|]. by rewrite IH.
Qed.

Lemma string_length_app a b :
  String.length (a +:+ b) = String.length a + String.length b.
Proof. induction a as [|h a IH]; simpl; [done|]. by rewrite IH. Qed.

Lemma name_of_bare n :
  n ≠ "" → n ≠ "." → Py.contains "/" n = false → Path.name n = n.
Proof.
  intros. unfold Path.name, Path.parts. rewrite split_without by done.
  by rewrite filter_cons_True, filter_nil by done.
Qed.

Lemma name_of_path dir n :
  n ≠ "" → n ≠ "." → Py.contains "/" n = false →
  Path.name (dir +:+ "/" +:+ n) = n.
Proof.
  intros. unfold Path.name, Path.parts.
  change ("/" +:+ n) with (String "/" n).
  rewrite split_app, filter_app, (split_without "/" n) by done.
  rewrite filter_cons_True, filter_nil by done. apply last_last.
Qed.

Lemma stem_of_name base ext p :
  is_file_name base ext →
  Path.name p = base +:+ "." +:+ ext → Path.stem p = base.
Proof.
  intros (Hbase & Hext & _ & _ & Hdot) Hname. unfold Path.stem.
  rewrite Hname. change ("." +:+ ext) with (String "." ext).
  rewrite rfind_last by done. rewrite string_length_app. simpl.
  assert (0 < String.length base) by (destruct base; [done | simpl; lia]).
  assert (0 < String.length ext) by (destruct ext; [done | simpl; lia]).
  rewrite (proj2 (Nat.ltb_lt _ _)) by lia.
  rewrite (proj2 (Nat.ltb_lt _ _)) by lia. simpl.
  apply substring_prefix.
Qed.

(** The stem of a path that ends in a file name [base.ext] is [base]. *)
Lemma stem_of_file_name base ext p :
  is_file_name base ext →
  p = base +:+ "." +:+ ext ∨ (∃ dir, p = dir +:+ "/" +:+ base +:+ "." +:+ ext) →
  Path.stem p = base.
Proof.
  intros Hfile Hp. apply (stem_of_name base ext); [done|].
  destruct Hfile as (Hbase & Hext & Hb & He & _).
  assert (base +:+ "." +:+ ext ≠ "") by (by destruct base).
  assert (base +:+ "." +:+ ext ≠ ".").
  { destruct base as [|? [|? ?]]; [done | by destruct ext | done]. }
  assert (Py.contains "/" (base +:+ "." +:+ ext) = false).
  { rewrite !contains_app, Hb, He. done. }
  destruct Hp as [->|[dir ->]].
  - by apply name_of_bare.
  - by apply name_of_path.
Qed.

(** ** import_chatroom *)

(** C5, as the code has it.  A format that is not [csv], recognised or
    not, is imported as JSON: the call returns or raises what the import
    with the format [json] returns or raises, and leaves the same
    state. *)
Theorem import_chatroom_other_format_as_json s file_path format :
  format ≠ "csv" →
  import_chatroom file_path format s = import_chatroom file_path "json" s.
Proof.
  intros Hne. unfold import_chatroom.
  by destruct (String.eqb_spec format "csv").
Qed.

(** The state after a successful read of the turns, for any rooms. *)
Lemma import_chatroom_run file_path format files c (m : M (list DisentangledTurn)) :
  m = (if format =? "csv" then import_csv file_path
       else import_json file_path) →
  ∃ a k, ∀ rooms,
    import_chatroom file_path format
      {| disentanglement_rooms := rooms; fs := files; clock := c |} =
    match a with
    | inl e => (inl e, {| disentanglement_rooms := rooms;
                          fs := files; clock := c + k |})
    | inr ts =>
        let rid := Path.stem file_path in
        let room := {| room_id := rid; turns := ts |} in
        (inr {| import_message :=
                  "Successfully imported chat room " +:+ rid;
                total_turns := length ts;
                pre_annotated_turns := count_annotated ts |},
         {| disentanglement_rooms := <[rid := room]> rooms;
            fs := <[Path.join data_dir (rid +:+ ".json") :=
                      json_dump None (room_json room)]> files;
            clock := c + k |})
    end.
Proof.
  intros Hm.
  assert (reads_only m) as Hread.
  { rewrite Hm. destruct (format =? "csv");
      [apply reads_only_import_csv | apply reads_only_import_json]. }
  destruct (Hread files c) as (a & k & Ha). exists a, k. intros rooms.
  unfold import_chatroom. rewrite <- Hm. unfold bind at 1. rewrite Ha.
  by destruct a.
Qed.


(** ** The rows of a csv import *)

Lemma reads_only_frame {A} (m : M A) s r s' :
  reads_only m → m s = (r, s') →
  disentanglement_rooms s' = disentanglement_rooms s
  ∧ fs s' = fs s ∧ (clock s ≤ clock s')%nat.
Proof.
  intros Hm Hrun. destruct s as [rooms files c].
  destruct (Hm files c) as (a & k & Ha). rewrite Ha in Hrun.
  injection Hrun as <- <-. simpl. repeat split; lia.
Qed.

Lemma for_each_inr {A B} (f : A → M B) l :
  (∀ x, reads_only (f x)) →
  ∀ s ys s',
    for_each f l s = (inr ys, s') →
    (clock s ≤ clock s')%nat
    ∧ Forall2 (λ x y, ∃ s1 s2, f x s1 = (inr y, s2)
                               ∧ (clock s ≤ clock s1)%nat
                               ∧ (clock s2 ≤ clock s')%nat) l ys.
Proof.
  intros Hf. induction l as [|x l IH]; intros s ys s' Hrun; simpl in Hrun.
  - injection Hrun as <- <-. split; [done | constructor].
  - unfold bind at 1 in Hrun.
    destruct (f x s) as [[e|y] sa] eqn:Hx; [done|].
    unfold bind at 1 in Hrun.
    destruct (for_each f l sa) as [[e|ys'] sb] eqn:Hl; [done|].
    injection Hrun as <- <-.
    destruct (reads_only_frame _ _ _ _ (Hf x) Hx) as (_ & _ & Hsa).
    destruct (IH _ _ _ Hl) as [Hsb Hall]. split; [lia|].
    constructor.
    + exists s, sa. split; [done|]. split; lia.
    + eapply Forall2_impl; [exact Hall|].
      intros x' y' (s1 & s2 & ? & ? & ?). exists s1, s2.
      split; [done|]. split; lia.
Qed.

Lemma detect_thread_column_truthy headers col :
  detect_thread_column headers = Some col → Py.truthy_str col = true.
Proof.
  unfold detect_thread_column, thread_column_variants. simpl.
  repeat case_bool_decide; by intros [= <-].
Qed.

Lemma usable_thread_truthy v :
  usable_thread v = true → Py.truthy_str (Py.strip v) = true.
Proof.
  unfold usable_thread, Py.truthy_str.
  destruct (String.eqb_spec (Py.strip v) "") as [->|]; [done|done].
Qed.

Lemma usable_thread_empty : usable_thread "" = false.
Proof. reflexivity. Qed.

(** The thread the csv loop finds for a row. *)
Lemma existing_thread_of_value headers row :
  existing_thread_of (detect_thread_column headers) row =
    match thread_value headers row with
    | Some v => if usable_thread v then Some (Py.strip v) else None
    | None => None
    end.
Proof.
  unfold existing_thread_of, thread_value.
  destruct (detect_thread_column headers) as [col|] eqn:Hcol; [|done].
  rewrite (detect_thread_column_truthy _ _ Hcol).
  cbn [mbind option_bind andb].
  destruct (row_get row col) as [v|]; [|done].
  cbn [Py.truthy default]. unfold Py.truthy_str.
  destruct (String.eqb_spec v "") as [->|Hv]; [done|].
  cbn [negb]. cbv zeta. unfold usable_thread.
  by destruct (Py.str_in _ _).
Qed.

(** What one pass of the csv loop returns. *)
Lemma turn_of_row_inr file_path col row s t s' :
  turn_of_row file_path col row s = (inr t, s') →
  let existing_thread := existing_thread_of col row in
  thread_id t = existing_thread
  ∧ if Py.truthy existing_thread then
      annotator_id t = Some "imported"
      ∧ annotation_timestamp t = Some (datetime_now (clock s))
      ∧ annotation_notes t = Some ("Imported from " +:+ file_path)
      ∧ clock s' = S (clock s)
    else
      annotator_id t = None ∧ annotation_timestamp t = None
      ∧ annotation_notes t = None.
Proof.
  unfold turn_of_row, row_item. intros Hrun.
  destruct (row !! "user_id") as [[u|]|];
    destruct (row !! "turn_id") as [[i|]|];
    destruct (row !! "turn_text") as [[x|]|];
    destruct (Py.truthy (existing_thread_of col row)) eqn:He;
    revert Hrun; run; intros Hrun; try done;
    injection Hrun as <- <-; simpl; by rewrite ?He.
Qed.

Lemma import_chatroom_inr s file_path format res s' :
  import_chatroom file_path format s = (inr res, s') →
  ∃ ts s1,
    (if format =? "csv" then import_csv file_path
     else import_json file_path) s = (inr ts, s1)
    ∧ clock s' = clock s1
    ∧ disentanglement_rooms s' !! Path.stem file_path =
        Some {| room_id := Path.stem file_path; turns := ts |}.
Proof.
  unfold import_chatroom. unfold bind at 1.
  destruct ((if format =? "csv" then import_csv file_path
             else import_json file_path) s) as [[e|ts] s1]; [done|].
  run. intros [= <- <-]. exists ts, s1. simpl.
  by rewrite lookup_insert_eq.
Qed.

(** C4, as the code has it.  After a successful csv import the turns of
    the room are the rows in order.  A row whose value in the detected
    thread column, stripped of surrounding whitespace, is not empty and
    is not none or null in any case gives a turn with the stripped value
    as thread id, the annotator [imported], the time of a clock read made
    during the import and a note that names the source.  Any other row,
    and every row when no thread column is detected, gives a turn whose
    four annotation fields are null. *)
Theorem import_csv_row_annotations s file_path res s' :
  import_chatroom file_path "csv" s = (inr res, s') →
  ∃ file headers records ts,
    fs s !! file_path = Some file
    ∧ csv_reader file = headers :: records
    ∧ disentanglement_rooms s' !! Path.stem file_path =
        Some {| room_id := Path.stem file_path; turns := ts |}
    ∧ Forall2
        (λ row t,
           match thread_value headers row with
           | Some v =>
               if usable_thread v then
                 thread_id t = Some (Py.strip v)
                 ∧ annotator_id t = Some "imported"
                 ∧ (∃ k, (clock s ≤ k < clock s')%nat
                         ∧ annotation_timestamp t = Some (datetime_now k))
                 ∧ annotation_notes t =
                     Some ("Imported from " +:+ file_path)
               else unannotated t
           | None => unannotated t
           end)
        (dict_rows headers records) ts.
Proof.
  intros Hrun.
  apply import_chatroom_inr in Hrun as (ts & s1 & Hcsv & Hclock & Hroom).
  simpl in Hcsv. unfold import_csv, read_file in Hcsv.
  unfold bind at 1 in Hcsv.
  destruct (fs s !! file_path) as [file|] eqn:Hfile; [|done].
  destruct (csv_reader file) as [|headers records] eqn:Hrecords; [done|].
  apply for_each_inr in Hcsv as [_ Hall];
    [|intros; apply reads_only_turn_of_row].
  exists file, headers, records, ts. do 3 (split; [done|]).
  eapply Forall2_impl; [exact Hall|].
  intros row t (sa & sb & Hrow & Hlo & Hhi).
  apply turn_of_row_inr in Hrow as [Hth Hrest].
  rewrite existing_thread_of_value in Hth, Hrest.
  destruct (thread_value headers row) as [v|]; simpl in *;
    [destruct (usable_thread v) eqn:Hv|]; simpl in *.
  - rewrite (usable_thread_truthy _ Hv) in Hrest.
    destruct Hrest as (? & ? & ? & ?). split; [done|]. split; [done|].
    split; [|done]. exists (clock sa). split; [lia | done].
  - by destruct Hrest as (? & ? & ?).
  - by destruct Hrest as (? & ? & ?).
Qed.

(** ** JSON export followed by JSON import *)

Section RoundTrip.

Context {L : RuntimeLaws R}.

Lemma parse_turn_dump t : parse_turn (json_of_dict (turn_dict t)) = Some t.
Proof.
  destruct t as [u i x r th a ts n].
  unfold parse_turn, json_of_dict, turn_dict, required_str,
    optional_field. simpl.
  rewrite !str_validator_str. simpl.
  destruct r, th, a, ts, n; simpl;
    rewrite ?str_validator_str, ?datetime_validator_str; done.
Qed.

Lemma turn_of_json_dump file_path t s :
  annotation_complete t = true →
  turn_of_json file_path (json_of_dict (turn_dict t)) s = (inr t, s).
Proof.
  unfold annotation_complete, turn_of_json. rewrite parse_turn_dump.
  destruct (Py.truthy (thread_id t)); simpl; [|done].
  intros [[Ha Hts%bool_decide_eq_true]%andb_true_iff Hn]%andb_true_iff.
  destruct (annotation_timestamp t) as [d|] eqn:Hd; [|done].
  run. unfold Py.str_or. rewrite Ha, Hn.
  destruct t; simpl in *. by rewrite Hd.
Qed.

Lemma for_each_turn_of_json_dump file_path ts s :
  forallb annotation_complete ts = true →
  for_each (turn_of_json file_path)
           (map (λ t, json_of_dict (turn_dict t)) ts) s = (inr ts, s).
Proof.
  induction ts as [|t ts IH]; simpl; [done|].
  intros [Ht Hts]%andb_true_iff. unfold bind.
  by rewrite turn_of_json_dump, IH.
Qed.


End RoundTrip.

(** ** Reachable states *)

Lemma turn_of_row_annotated file_path col row s t s' :
  turn_of_row file_path col row s = (inr t, s') → thread_annotated t.
Proof.
  intros [Hth Hrest]%turn_of_row_inr Ht. simpl in *.
  rewrite Hth in Ht. rewrite Ht in Hrest.
  destruct Hrest as (-> & -> & _). done.
Qed.

Lemma turn_of_json_annotated file_path turn_data s t s' :
  turn_of_json file_path turn_data s = (inr t, s') → thread_annotated t.
Proof.
  unfold turn_of_json, thread_annotated.
  destruct (parse_turn turn_data) as [turn|]; [|done].
  destruct (Py.truthy (thread_id turn)) eqn:Hth.
  - destruct (annotation_timestamp turn); run; intros [= <- <-] _; simpl;
      (split; [|done]); unfold Py.str_or;
      destruct (annotator_id turn); simpl; try done;
      by destruct (Py.truthy_str _).
  - run. intros [= <- <-] Ht. congruence.
Qed.

Lemma for_each_Forall {A B} (f : A → M B) (P : B → Prop) l :
  (∀ x s y s', f x s = (inr y, s') → P y) →
  ∀ s ys s', for_each f l s = (inr ys, s') → Forall P ys.
Proof.
  intros Hf. induction l as [|x l IH]; intros s ys s' Hrun; simpl in Hrun.
  - injection Hrun as <- <-. constructor.
  - unfold bind at 1 in Hrun.
    destruct (f x s) as [[e|y] sa] eqn:Hx; [done|].
    unfold bind at 1 in Hrun.
    destruct (for_each f l sa) as [[e|ys'] sb] eqn:Hl; [done|].
    injection Hrun as <- <-. constructor; eauto.
Qed.

Lemma import_csv_annotated file_path s ts s' :
  import_csv file_path s = (inr ts, s') → Forall thread_annotated ts.
Proof.
  unfold import_csv, read_file. unfold bind at 1.
  destruct (fs s !! file_path); [|done].
  destruct (csv_reader _); [done|].
  apply for_each_Forall. intros ????. apply turn_of_row_annotated.
Qed.

Lemma import_json_annotated file_path s ts s' :
  import_json file_path s = (inr ts, s') → Forall thread_annotated ts.
Proof.
  unfold import_json, read_file. unfold bind at 1.
  destruct (fs s !! file_path); [|done].
  destruct (json_load _) as [data|]; [|done].
  unfold bind at 1. destruct (json_item data "turns" s) as [[e|v] s1]; [done|].
  unfold bind at 1. destruct (json_iter v s1) as [[e|items] s2]; [done|].
  apply for_each_Forall. intros ????. apply turn_of_json_annotated.
Qed.

Lemma reads_only_source file_path format :
  reads_only (if format =? "csv" then import_csv file_path
              else import_json file_path).
Proof.
  destruct (format =? "csv");
    [apply reads_only_import_csv | apply reads_only_import_json].
Qed.

(** The two ways an import ends. *)
Lemma import_chatroom_cases s file_path format :
  match (if format =? "csv" then import_csv file_path
         else import_json file_path) s with
  | (inl e, s1) => import_chatroom file_path format s = (inl e, s1)
  | (inr ts, s1) =>
      let rid := Path.stem file_path in
      let room := {| room_id := rid; turns := ts |} in
      import_chatroom file_path format s =
        (inr {| import_message :=
                  "Successfully imported chat room " +:+ rid;
                total_turns := length ts;
                pre_annotated_turns := count_annotated ts |},
         {| disentanglement_rooms :=
              <[rid := room]> (disentanglement_rooms s1);
            fs := <[Path.join data_dir (rid +:+ ".json") :=
                      json_dump None (room_json room)]> (fs s1);
            clock := clock s1 |})
  end.
Proof.
  destruct ((if format =? "csv" then import_csv file_path
             else import_json file_path) s) as [[e|ts] s1] eqn:Hm;
    unfold import_chatroom; unfold bind at 1; rewrite Hm; [done|].
  by run.
Qed.

Lemma import_chatroom_annotated s file_path format :
  rooms_annotated (disentanglement_rooms s) →
  rooms_annotated
    (disentanglement_rooms (import_chatroom file_path format s).2).
Proof.
  intros Hs. pose proof (import_chatroom_cases s file_path format) as Hc.
  destruct ((if format =? "csv" then import_csv file_path
             else import_json file_path) s) as [[e|ts] s1] eqn:Hm;
    rewrite Hc; simpl;
    destruct (reads_only_frame _ _ _ _
                (reads_only_source file_path format) Hm) as (-> & _);
    [done|].
  intros rid room [[_ <-]|[_ Hold]]%lookup_insert_Some; [|by eapply Hs].
  simpl. destruct (format =? "csv");
    [by eapply import_csv_annotated | by eapply import_json_annotated].
Qed.

Lemma annotate_loop_missing key room tid annotator thread notes rest :
  ∀ seen s,
    Forall (λ t, turn_id t ≠ tid) rest →
    annotate_loop key room tid annotator thread notes seen rest s =
      (inl TurnNotFoundError, s).
Proof.
  induction rest as [|turn rest IH]; intros seen s Hall; simpl; [done|].
  apply Forall_cons in Hall as [Hne Hall].
  destruct (String.eqb_spec (turn_id turn) tid); [done|]. by apply IH.
Qed.

Lemma annotate_turn_annotated s rid tid annotator thread notes :
  rooms_annotated (disentanglement_rooms s) →
  rooms_annotated
    (disentanglement_rooms
       (annotate_turn rid tid annotator thread notes s).2).
Proof.
  intros Hs.
  destruct (disentanglement_rooms s !! rid) as [room|] eqn:Hroom.
  - destruct (decide (Exists (λ t, turn_id t = tid) (turns room)))
      as [Hex|Hnone].
    + apply Exists_exists in Hex.
      destruct (annotate_loop_found rid room tid annotator thread notes
                  (turns room) [] s Hex)
        as (pre & turn & post & Hsplit & _ & _ & Hrun).
      unfold annotate_turn. run. rewrite Hroom.
      simpl in Hrun. rewrite Hrun. simpl.
      intros rid' room' [[_ <-]|[_ Hold]]%lookup_insert_Some;
        [|by eapply Hs].
      simpl. pose proof (Hs _ _ Hroom) as Hall. rewrite Hsplit in Hall.
      apply Forall_app in Hall as [Hpre [_ Hpost]%Forall_cons].
      apply Forall_app. split; [done|]. constructor; [|done].
      by intros _.
    + apply not_Exists_Forall in Hnone; [|intros t; apply _].
      unfold annotate_turn. run. rewrite Hroom.
      rewrite annotate_loop_missing; [done|].
      eapply Forall_impl; [exact Hnone|]. by intros t Ht.
  - unfold annotate_turn. run. by rewrite Hroom.
Qed.

Lemma delete_chatroom_annotated s rid :
  rooms_annotated (disentanglement_rooms s) →
  rooms_annotated (disentanglement_rooms (delete_chatroom rid s).2).
Proof.
  intros Hs. pose proof (delete_chatroom_run s rid) as Hdel.
  destruct (disentanglement_rooms s !! rid).
  - rewrite Hdel. simpl.
    intros rid' room' [_ Hold]%lookup_delete_Some. by eapply Hs.
  - by rewrite Hdel.
Qed.

(** C9, as the code has it.  In every state the service reaches from an
    empty store by imports, annotations and deletions, every turn whose
    thread id is not empty has an annotator and an annotation time. *)
Theorem reachable_thread_annotated s rid room t :
  reachable s →
  disentanglement_rooms s !! rid = Some room →
  t ∈ turns room →
  Py.truthy (thread_id t) = true →
  annotator_id t ≠ None ∧ annotation_timestamp t ≠ None.
Proof.
  intros Hreach Hroom Hin.
  assert (rooms_annotated (disentanglement_rooms s)) as Hs.
  { clear -Hreach. induction Hreach as [files c|r s _ IH|files s _ IH].
    - intros rid room Hroom. simpl in Hroom.
      by rewrite lookup_empty in Hroom.
    - destruct r; simpl.
      + by apply import_chatroom_annotated.
      + by apply annotate_turn_annotated.
      + by apply delete_chatroom_annotated.
    - done. }
  pose proof (Hs _ _ Hroom) as Hall.
  rewrite Forall_forall in Hall. by apply Hall.
Qed.

End Properties.

(** * Further properties of the service *)

Section MoreProperties.

Context {R : Runtime}.

Implicit Types (s : State) (room : DisentanglementChatRoom).
Implicit Types (t turn : DisentangledTurn) (ts : list DisentangledTurn).

Ltac run :=
  unfold bind, ret, raise, get_rooms, set_rooms, write_file, set_fs,
    _save_room, now; simpl.

(** ** Failures of annotate_turn *)

(** X1.  When the room is not stored, or is stored and has no turn with
    the given id, [annotate_turn] raises the 404 failure of the room or
    of the turn and leaves the state as it was: no field is assigned, the
    clock is not read and no file is written. *)
Theorem annotate_turn_not_found s rid tid annotator thread notes :
  (∀ room, disentanglement_rooms s !! rid = Some room →
           Forall (λ t, turn_id t ≠ tid) (turns room)) →
  annotate_turn rid tid annotator thread notes s =
    (inl (match disentanglement_rooms s !! rid with
          | Some _ => HTTPException 404 "Turn not found"
          | None => HTTPException 404 "Chat room not found"
          end), s).
Proof.
  intros Hnone. unfold annotate_turn. run.
  destruct (disentanglement_rooms s !! rid) as [room|]; [|done].
  by apply annotate_loop_missing, Hnone.
Qed.

(** ** Failures of import_chatroom *)



(** ** The counts of list_chatrooms and get_thread_summary *)

Lemma count_annotated_omap ts :
  count_annotated ts = length (omap thread_id ts).
Proof.
  unfold count_annotated. induction ts as [|t ts IH]; [done|].
  destruct (thread_id t) as [th|] eqn:Hth.
  - rewrite filter_cons_True by (by rewrite Hth). simpl.
    by rewrite Hth, IH.
  - rewrite filter_cons_False by (by rewrite Hth; intros []). simpl.
    by rewrite Hth.
Qed.

Lemma size_list_to_set_le (l : list string) :
  (size (list_to_set l : gset string) ≤ length l)%nat.
Proof.
  induction l as [|x l IH]; simpl.
  - done.
  - rewrite size_union_alt, size_singleton.
    pose proof (subseteq_size (list_to_set l ∖ {[x]})
                  (list_to_set l : gset string)) as Hle.
    assert (list_to_set l ∖ {[x]} ⊆ (list_to_set l : gset string))
      by apply subseteq_difference_l, reflexivity.
    specialize (Hle H). lia.
Qed.

Lemma length_omap_le {A B} (f : A → option B) (l : list A) :
  (length (omap f l) ≤ length l)%nat.
Proof.
  induction l as [|x l IH]; [done|].
  change (omap f (x :: l))
    with (match f x with Some y => y :: omap f l | None => omap f l end).
  destruct (f x); simpl; lia.
Qed.

(** X4.  For a stored room the four counts are ordered: the thread count
    of [get_thread_summary] is at most the thread count of
    [list_chatrooms], which is at most its count of annotated turns,
    which is at most its count of turns. *)
Theorem room_counts_ordered s rid room :
  disentanglement_rooms s !! rid = Some room →
  ∃ summary,
    get_thread_summary rid s = (inr summary, s)
    ∧ (summary_thread_count summary
         ≤ thread_count (room_summary rid room))%nat
    ∧ (thread_count (room_summary rid room)
         ≤ annotated_turns (room_summary rid room))%nat
    ∧ (annotated_turns (room_summary rid room)
         ≤ turn_count (room_summary rid room))%nat.
Proof.
  intros Hroom. eexists. unfold get_thread_summary. run. rewrite Hroom.
  split; [done|]. simpl. split; [|split].
  - rewrite <- size_dom, dom_group_threads.
    apply subseteq_size, subseteq_difference_l. reflexivity.
  - rewrite count_annotated_omap. apply size_list_to_set_le.
  - rewrite count_annotated_omap. apply length_omap_le.
Qed.

(** X5.  After a successful import [list_chatrooms] has exactly one entry
    for the room id of the import, and its counts of turns and of
    annotated turns are the two counts the import returned. *)
Theorem import_then_list s file_path format res s' :
  import_chatroom file_path format s = (inr res, s') →
  ∃ listed entry,
    list_chatrooms s' = (inr listed, s')
    ∧ entry ∈ listed
    ∧ list_room_id entry = Path.stem file_path
    ∧ turn_count entry = total_turns res
    ∧ annotated_turns entry = pre_annotated_turns res
    ∧ ∀ other, other ∈ listed →
               list_room_id other = Path.stem file_path → other = entry.
Proof.
  intros Hrun. pose proof (import_chatroom_cases s file_path format) as Hc.
  destruct ((if format =? "csv" then import_csv file_path
             else import_json file_path) s) as [[e|ts] s1];
    rewrite Hc in Hrun; [done|].
  injection Hrun as <- <-.
  eexists _, (room_summary (Path.stem file_path)
                {| room_id := Path.stem file_path; turns := ts |}).
  unfold list_chatrooms. run. split; [done|]. split.
  { apply (list_elem_of_fmap_2' _ _
             (Path.stem file_path,
              {| room_id := Path.stem file_path; turns := ts |}));
      [|done].
    apply elem_of_map_to_list, lookup_insert_eq. }
  do 3 (split; [done|]).
  intros other [[k r] [-> Hin]]%list_elem_of_fmap. simpl. intros ->.
  apply elem_of_map_to_list in Hin. rewrite lookup_insert_eq in Hin.
  by injection Hin as <-.
Qed.

(** ** The groups of get_thread_summary *)

Lemma grouped_turns_insert (m : gmap string (list string)) k ids :
  m !! k = None →
  grouped_turns (<[k := ids]> m) = length ids + grouped_turns m.
Proof.
  intros Hk. unfold grouped_turns.
  rewrite map_fold_insert_L; [done | intros; lia | done].
Qed.

Lemma grouped_turns_replace (m : gmap string (list string)) k ids ids' :
  m !! k = Some ids →
  grouped_turns (<[k := ids']> m) + length ids =
    grouped_turns m + length ids'.
Proof.
  intros Hk.
  rewrite <- (insert_delete_eq m k ids').
  rewrite <- (insert_delete_id m k ids) at 2 by done.
  rewrite !grouped_turns_insert by apply lookup_delete_eq. lia.
Qed.

Lemma grouped_turns_step acc t :
  grouped_turns (group_step acc t) =
    grouped_turns acc + (if Py.truthy (thread_id t) then 1 else 0).
Proof.
  unfold group_step. destruct (thread_id t) as [th|]; simpl; [|lia].
  destruct (Py.truthy_str th); [|lia].
  destruct (acc !! th) as [ids|] eqn:Hacc.
  - rewrite Hacc. simpl.
    pose proof (grouped_turns_replace acc th ids (ids ++ [turn_id t]) Hacc)
      as Hr.
    rewrite length_app in Hr. simpl in Hr. lia.
  - rewrite lookup_insert_eq, insert_insert_eq. simpl.
    rewrite grouped_turns_insert by done. simpl. lia.
Qed.

Lemma grouped_turns_foldl ts : ∀ acc,
  grouped_turns (foldl group_step acc ts) =
    grouped_turns acc + length (threaded_turns ts).
Proof.
  unfold threaded_turns.
  induction ts as [|t ts IH]; intros acc; simpl; [lia|].
  rewrite IH, grouped_turns_step.
  destruct (Py.truthy (thread_id t)) eqn:Ht.
  - rewrite filter_cons_True by done. simpl. lia.
  - rewrite filter_cons_False by (by rewrite Ht). lia.
Qed.

(** X6.  The groups of [get_thread_summary] hold as many turn ids as the
    room has turns with a non-empty thread id, and no group is empty: a
    turn with a thread is in one group, once. *)
Theorem thread_summary_keeps_every_turn s rid room :
  disentanglement_rooms s !! rid = Some room →
  ∃ summary,
    get_thread_summary rid s = (inr summary, s)
    ∧ grouped_turns (summary_threads summary) =
        length (threaded_turns (turns room))
    ∧ ∀ th ids, summary_threads summary !! th = Some ids → ids ≠ [].
Proof.
  intros Hroom. eexists. unfold get_thread_summary. run. rewrite Hroom.
  split; [done|]. simpl. split.
  - unfold group_threads. rewrite grouped_turns_foldl.
    unfold grouped_turns. by rewrite map_fold_empty.
  - intros th ids. rewrite group_threads_lookup.
    case_decide as H; [|done]. intros [= <-].
    destruct H as [_ H]. intros Hnil%turns_of_thread_nil. done.
Qed.

(** ** The file of a room *)

Lemma split_no_sep c x : Forall (λ y, Py.contains c y = false) (Py.split c x).
Proof.
  induction x as [|a x IH]; simpl; [by repeat constructor|].
  destruct (Ascii.eqb a c) eqn:Ha; [by constructor|].
  destruct (Py.split c x) as [|y ys]; [by repeat constructor; simpl; rewrite Ha|].
  apply Forall_cons in IH as [Hy Hys]. constructor; [|done].
  simpl. by rewrite Ha, Hy.
Qed.

Lemma last_Forall {A} (P : A → Prop) (l : list A) d :
  Forall P l → P d → P (List.last l d).
Proof.
  intros Hl Hd. induction Hl as [|x l Hx Hl IH]; [done|].
  simpl. by destruct l.
Qed.

Lemma name_no_slash p : Py.contains "/" (Path.name p) = false.
Proof.
  unfold Path.name, Path.parts.
  apply (last_Forall (λ y, Py.contains "/" y = false)); [|done].
  apply Forall_forall. intros y [_ Hy]%list_elem_of_filter.
  pose proof (split_no_sep "/" p) as Hall.
  rewrite Forall_forall in Hall. by apply Hall.
Qed.

Lemma contains_substring c n : ∀ i,
  Py.contains c n = false → Py.contains c (String.substring 0 i n) = false.
Proof.
  induction n as [|a n IH]; intros [|i] Hn; simpl in *; try done.
  apply orb_false_iff in Hn as [-> Hn]. by rewrite IH.
Qed.

Lemma stem_no_slash p : Py.contains "/" (Path.stem p) = false.
Proof.
  unfold Path.stem. pose proof (name_no_slash p).
  destruct (Py.rfind "." (Path.name p)) as [i|]; [|done].
  destruct (_ && _); [|done]. by apply contains_substring.
Qed.

Lemma prefix_app a b : String.prefix a (a +:+ b) = true.
Proof.
  induction a as [|h a IH]; simpl; [by destruct b|].
  by destruct (ascii_dec h h).
Qed.

Lemma startswith_slash_false n :
  Py.contains "/" n = false → Py.startswith "/" n = false.
Proof.
  destruct n as [|a n]; [done|]. intros Hc. unfold Py.startswith.
  change (String.prefix "/" (String a n))
    with (if ascii_dec "/" a then String.prefix "" n else false).
  destruct (ascii_dec "/" a) as [<-|]; [|done]. by simpl in Hc.
Qed.

(** The file of a room whose id holds no slash is the file of that name
    in the data directory. *)
Lemma room_file_plain rid :
  Py.contains "/" rid = false →
  room_file rid = "data/chatrooms/" +:+ rid +:+ ".json".
Proof.
  intros Hrid. unfold room_file, Path.join, data_dir.
  assert (Py.contains "/" (rid +:+ ".json") = false) as Hn
    by (by rewrite contains_app, Hrid).
  rewrite (startswith_slash_false _ Hn). unfold Path.str, Path.parts.
  change ("data/chatrooms" +:+ "/" +:+ rid +:+ ".json")
    with ("data" +:+ String "/" ("chatrooms" +:+ String "/" (rid +:+ ".json"))).
  rewrite !split_app, (split_without "/" _ Hn).
  assert (rid +:+ ".json" ≠ "") by (by destruct rid).
  assert (rid +:+ ".json" ≠ ".") by (by destruct rid as [|? [|? ?]]).
  simpl. rewrite !filter_cons_True, filter_nil by done. done.
Qed.

Lemma app_inj_r a b c : a +:+ c = b +:+ c → a = b.
Proof.
  intros H.
  assert (String.length a = String.length b) as Hlen.
  { apply (f_equal String.length) in H.
    rewrite !string_length_app in H. lia. }
  revert b H Hlen.
  induction a as [|x a IH]; intros [|y b] H Hlen; simpl in *; try done.
  injection H as -> H. f_equal. apply IH; [done | lia].
Qed.

Lemma room_file_inj rid rid' :
  Py.contains "/" rid = false → Py.contains "/" rid' = false →
  room_file rid = room_file rid' → rid = rid'.
Proof.
  intros H H'. rewrite !room_file_plain by done.
  intros Heq%(inj (String.app "data/chatrooms/")).
  by apply app_inj_r in Heq.
Qed.

(** X7.  The room id of an import, the stem of the source path, holds
    no slash, whatever the path; so the room is written to the file
    [data/chatrooms/<room id>.json], directly in the data directory, and
    the rooms of two different ids are written to different files. *)
Theorem room_file_of_stem p q :
  Py.contains "/" (Path.stem p) = false
  ∧ room_file (Path.stem p) = "data/chatrooms/" +:+ Path.stem p +:+ ".json"
  ∧ (room_file (Path.stem p) = room_file (Path.stem q) →
     Path.stem p = Path.stem q).
Proof.
  split; [apply stem_no_slash|]. split.
  - apply room_file_plain, stem_no_slash.
  - apply room_file_inj; apply stem_no_slash.
Qed.

(** ** Every stored room is on disk *)

Lemma import_chatroom_persisted s file_path format :
  persisted s → persisted (import_chatroom file_path format s).2.
Proof.
  intros Hs. pose proof (import_chatroom_cases s file_path format) as Hc.
  destruct ((if format =? "csv" then import_csv file_path
             else import_json file_path) s) as [[e|ts] s1] eqn:Hm;
    rewrite Hc; simpl;
    destruct (reads_only_frame _ _ _ _
                (reads_only_source file_path format) Hm) as (Hr & Hf & _).
  { intros rid room. rewrite Hr, Hf. apply Hs. }
  intros rid room. simpl. rewrite Hr, Hf.
  change (Path.join data_dir (Path.stem file_path +:+ ".json"))
    with (room_file (Path.stem file_path)).
  intros [[<- <-]|[Hne Hold]]%lookup_insert_Some.
  - split; [done|]. split; [apply stem_no_slash|].
    apply lookup_insert_eq.
  - destruct (Hs _ _ Hold) as (Hid & Hslash & Hfile).
    split; [done|]. split; [done|].
    rewrite lookup_insert_ne; [done|].
    intros Heq%room_file_inj; [done | apply stem_no_slash | done].
Qed.

Lemma annotate_turn_persisted s rid tid annotator thread notes :
  persisted s →
  persisted (annotate_turn rid tid annotator thread notes s).2.
Proof.
  intros Hs.
  destruct (disentanglement_rooms s !! rid) as [room|] eqn:Hroom.
  - destruct (decide (Exists (λ t, turn_id t = tid) (turns room)))
      as [Hex|Hnone].
    + apply Exists_exists in Hex.
      destruct (annotate_loop_found rid room tid annotator thread notes
                  (turns room) [] s Hex)
        as (pre & turn & post & Hsplit & _ & _ & Hrun).
      unfold annotate_turn. run. rewrite Hroom.
      simpl in Hrun. rewrite Hrun. simpl.
      destruct (Hs _ _ Hroom) as (Hid & Hslash & Hfile).
      intros rid' room'. simpl.
      rewrite Hid.
      change (Path.join data_dir (rid +:+ ".json")) with (room_file rid).
      intros [[<- <-]|[Hne Hold]]%lookup_insert_Some.
      * simpl. split; [done|]. split; [done|].
        by rewrite lookup_insert_eq.
      * destruct (Hs _ _ Hold) as (Hid' & Hslash' & Hfile').
        split; [done|]. split; [done|].
        rewrite lookup_insert_ne; [done|].
        by intros Heq%room_file_inj.
    + apply not_Exists_Forall in Hnone; [|intros t; apply _].
      unfold annotate_turn. run. rewrite Hroom.
      rewrite annotate_loop_missing; [done|].
      eapply Forall_impl; [exact Hnone|]. by intros t Ht.
  - unfold annotate_turn. run. by rewrite Hroom.
Qed.

Lemma delete_chatroom_persisted s rid :
  persisted s → persisted (delete_chatroom rid s).2.
Proof.
  intros Hs. pose proof (delete_chatroom_run s rid) as Hdel.
  destruct (disentanglement_rooms s !! rid) as [room|] eqn:Hroom;
    rewrite Hdel; [|done]. simpl.
  destruct (Hs _ _ Hroom) as (_ & Hslash & _).
  change (Path.join data_dir (rid +:+ ".json")) with (room_file rid).
  intros rid' room'. simpl. intros [Hne Hold]%lookup_delete_Some.
  destruct (Hs _ _ Hold) as (Hid' & Hslash' & Hfile').
  split; [done|]. split; [done|].
  rewrite lookup_delete_ne; [done|]. by intros Heq%room_file_inj.
Qed.

Lemma served_persisted s : served s → persisted s.
Proof.
  induction 1 as [files c|r s _ IH].
  - intros rid room Hroom. simpl in Hroom.
    by rewrite lookup_empty in Hroom.
  - destruct r; simpl.
    + by apply import_chatroom_persisted.
    + by apply annotate_turn_persisted.
    + by apply delete_chatroom_persisted.
Qed.


(** ** Loading the rooms at startup *)

Lemma substring_all b : String.substring 0 (String.length b) b = b.
Proof. induction b as [|c b IH]; simpl; [done|]. by rewrite IH. Qed.

Lemma substring_drop a b n :
  String.substring (String.length a) n (a +:+ b) = String.substring 0 n b.
Proof. induction a as [|c a IH]; simpl; [done|]. by rewrite IH. Qed.

Lemma in_data_dir_json_room_file rid :
  Py.contains "/" rid = false → in_data_dir_json (room_file rid) = true.
Proof.
  intros Hrid. rewrite room_file_plain by done. unfold in_data_dir_json.
  cbv zeta. unfold Py.startswith. rewrite prefix_app.
  rewrite string_length_app, Nat.add_comm, Nat.add_sub, substring_drop.
  rewrite substring_all, contains_app, Hrid. simpl.
  unfold endswith. rewrite string_length_app. simpl.
  rewrite Nat.add_sub, substring_drop. done.
Qed.

Section Restart.

Context {L : RuntimeLaws R}.

Lemma mapM_parse_turn_dump ts :
  mapM parse_turn (map (λ t, json_of_dict (turn_dict t)) ts) = Some ts.
Proof.
  induction ts as [|t ts IH]; [done|].
  cbn [map mapM]. rewrite parse_turn_dump. cbn [mbind option_bind].
  rewrite IH. done.
Qed.

Lemma parse_room_dump room : parse_room (room_json room) = Some room.
Proof.
  destruct room as [rid ts]. unfold parse_room, room_json, required_str.
  simpl. rewrite str_validator_str. simpl.
  by rewrite mapM_parse_turn_dump.
Qed.

(** Loading files that are the files of stored rooms adds these rooms
    to the dict, each under its id. *)
Lemma load_loop_stored s s0 paths :
  persisted s → fs s0 = fs s →
  (∀ p, p ∈ paths →
        ∃ rid, is_Some (disentanglement_rooms s !! rid)
               ∧ p = room_file rid) →
  ∀ acc, ∃ acc',
    load_loop paths acc s0 = (inr acc', s0)
    ∧ ∀ k, acc' !! k =
             if decide (room_file k ∈ paths
                        ∧ is_Some (disentanglement_rooms s !! k))
             then disentanglement_rooms s !! k else acc !! k.
Proof.
  intros Hs Hfs. induction paths as [|p paths IH]; intros Hpaths acc.
  - exists acc. split; [done|]. intros k.
    rewrite decide_False; [done|]. intros [H%elem_of_nil _]. done.
  - destruct (Hpaths p) as (rid & [room Hroom] & ->);
      [apply elem_of_cons; by left|].
    destruct (Hs _ _ Hroom) as (Hid & Hslash & Hfile).
    destruct (IH (λ q Hq, Hpaths q (proj2 (elem_of_cons _ _ _)
                                      (or_intror Hq)))
                (<[rid := room]> acc)) as (acc' & Hrun & Hacc').
    exists acc'. split.
    + simpl. unfold bind, read_file. rewrite Hfs, Hfile.
      rewrite json_load_dump, parse_room_dump, Hid. exact Hrun.
    + intros k. rewrite Hacc'.
      destruct (decide (room_file k ∈ paths ∧ _)) as [[Hin Hk]|Hnot].
      * rewrite decide_True; [done|]. split; [|done].
        apply elem_of_cons. by right.
      * destruct (decide (k = rid)) as [->|Hne].
        -- rewrite lookup_insert_eq, decide_True; [done|].
           split; [apply elem_of_cons; by left | by eexists].
        -- rewrite lookup_insert_ne by done.
           rewrite decide_False; [done|].
           intros [[Heq|Hin]%elem_of_cons [room' Hk]]; [|by eauto].
           apply room_file_inj in Heq; [done| |done].
           by destruct (Hs _ _ Hk) as (_ & ? & _).
Qed.


End Restart.

(** ** list_chatrooms *)

(** X10.  [list_chatrooms] returns one entry for each stored room and
    nothing else: as many entries as rooms, no room id twice, every
    stored room has its entry, and every entry is the summary of the
    room stored under its id.  The state is left as it was. *)
Theorem list_chatrooms_one_entry_per_room s :
  ∃ listed,
    list_chatrooms s = (inr listed, s)
    ∧ length listed = size (disentanglement_rooms s)
    ∧ NoDup (list_room_id <$> listed)
    ∧ (∀ rid room, disentanglement_rooms s !! rid = Some room →
                   room_summary rid room ∈ listed)
    ∧ (∀ entry, entry ∈ listed →
                ∃ room, disentanglement_rooms s !! list_room_id entry =
                          Some room
                        ∧ entry = room_summary (list_room_id entry) room).
Proof.
  eexists. unfold list_chatrooms. run. split; [done|].
  split; [by rewrite length_map, length_map_to_list|]. split.
  { rewrite <- list_fmap_compose.
    apply (NoDup_fst_map_to_list (disentanglement_rooms s)). }
  split.
  - intros rid room Hroom.
    apply (list_elem_of_fmap_2' _ _ (rid, room)); [|done].
    by apply elem_of_map_to_list.
  - intros entry [[rid room] [-> Hin]]%list_elem_of_fmap.
    apply elem_of_map_to_list in Hin. by exists room.
Qed.

(** ** Annotating a turn twice *)

(** The loop on a room whose first turn with the id is known. *)
Lemma annotate_loop_at key room tid annotator thread notes pre turn post :
  Forall (λ t, turn_id t ≠ tid) pre →
  turn_id turn = tid →
  ∀ seen s,
    annotate_loop key room tid annotator thread notes seen
                  (pre ++ turn :: post) s =
      (inr {| annotate_message := "Turn " +:+ tid +:+ " annotated";
              annotate_timestamp := datetime_now (clock s) |},
       let room' :=
         {| room_id := room_id room;
            turns := (seen ++ pre)
                     ++ set_annotation turn thread annotator
                          (datetime_now (clock s)) notes :: post |} in
       {| disentanglement_rooms :=
            <[key := room']> (disentanglement_rooms s);
          fs := <[Path.join data_dir (room_id room +:+ ".json") :=
                    json_dump None (room_json room')]> (fs s);
          clock := S (clock s) |}).
Proof.
  intros Hpre Hid. induction Hpre as [|t pre Ht Hpre IH]; intros seen s.
  - simpl. rewrite Hid, String.eqb_refl, app_nil_r. by run.
  - simpl. destruct (String.eqb_spec (turn_id t) tid); [done|].
    rewrite IH. simpl. by rewrite <- (app_assoc seen [t] pre).
Qed.

(** X11.  The last annotation wins: annotating a turn and then
    annotating the same turn again gives what the second annotation
    alone gives on the state whose clock was read once more; nothing of
    the first annotation is left in the room or in its file. *)
Theorem annotate_turn_twice s rid tid room
    annotator1 thread1 notes1 annotator2 thread2 notes2 :
  disentanglement_rooms s !! rid = Some room →
  (∃ t, t ∈ turns room ∧ turn_id t = tid) →
  annotate_turn rid tid annotator2 thread2 notes2
    (annotate_turn rid tid annotator1 thread1 notes1 s).2 =
  annotate_turn rid tid annotator2 thread2 notes2
    {| disentanglement_rooms := disentanglement_rooms s;
       fs := fs s; clock := S (clock s) |}.
Proof.
  intros Hroom Hex.
  destruct (annotate_loop_found rid room tid annotator1 thread1 notes1
              (turns room) [] s Hex)
    as (pre & turn & post & Hsplit & Hpre & Hid & _).
  unfold annotate_turn. run. rewrite Hroom, Hsplit.
  rewrite annotate_loop_at by done. simpl.
  rewrite lookup_insert_eq. simpl.
  rewrite !annotate_loop_at by done. simpl.
  by rewrite !insert_insert_eq.
Qed.

End MoreProperties.

(** * The properties on the concrete runtime *)

Module Checks.

#[local] Existing Instance Demo.runtime.

Lemma demo_laws : RuntimeLaws Demo.runtime.
Proof. by split. Qed.

(** The path and string functions on a few inputs. *)

Example stem_plain : Path.stem "uploads/room1.csv" = "room1".
Proof. reflexivity. Qed.

Example stem_two_suffixes : Path.stem "/tmp/chat.tar.gz" = "chat.tar".
Proof. reflexivity. Qed.

Example stem_hidden : Path.stem "a/.hidden" = ".hidden".
Proof. reflexivity. Qed.

Example join_plain :
  Path.join "data/chatrooms" "export_r1.csv" = "data/chatrooms/export_r1.csv".
Proof. reflexivity. Qed.

Example strip_lower : Py.lower (Py.strip "  NoNe ") = "none".
Proof. reflexivity. Qed.


(** The example of the specification for the thread summary. *)
Example thread_summary_example :
  get_thread_summary "ab" (Demo.store_of Demo.room_ab) =
    (inr {| summary_room_id := "ab";
            summary_thread_count := 2;
            summary_threads := {[ "A" := ["t1"; "t3"]; "B" := ["t2"] ]} |},
     Demo.store_of Demo.room_ab).
Proof. by vm_compute. Qed.

(** C2 as it is written fails: a turn with the empty string as thread id
    has a thread id, and the room has one distinct thread id, but the
    summary reports no thread and has no group for the turn. *)
Lemma thread_summary_ignores_empty_thread_id :
  let room := {| room_id := "e";
                 turns := [Demo.blank_thread "u1" "t1" "one"] |} in
  thread_id (Demo.blank_thread "u1" "t1" "one") = Some ""
  ∧ size (thread_set (turns room)) = 1
  ∧ get_thread_summary "e" (Demo.store_of room) =
      (inr {| summary_room_id := "e";
              summary_thread_count := 0;
              summary_threads := ∅ |},
       Demo.store_of room).
Proof. by vm_compute. Qed.

Lemma empty_thread_id_listed_not_summarised_witness :
  ∃ listed summary,
    list_chatrooms (Demo.store_of Demo.room_blank) =
      (inr listed, Demo.store_of Demo.room_blank)
    ∧ get_thread_summary "blank" (Demo.store_of Demo.room_blank) =
        (inr summary, Demo.store_of Demo.room_blank)
    ∧ thread_count (room_summary "blank" Demo.room_blank) = 2
    ∧ summary_thread_count summary = 1.
Proof.
  destruct (empty_thread_id_listed_not_summarised
              (Demo.store_of Demo.room_blank) "blank" Demo.room_blank
              [Demo.threaded "u1" "t1" "one" "A" None]
              (Demo.blank_thread "u2" "t2" "two") [])
    as (listed & summary & H1 & _ & _ & _ & H5 & _ & _ & H8 & _).
  - reflexivity.
  - reflexivity.
  - reflexivity.
  - exists listed, summary. split; [done|]. split; [done|].
    assert (thread_count (room_summary "blank" Demo.room_blank) = 2) as H2
      by (by vm_compute).
    split; [done|]. rewrite H2 in H8. by injection H8.
Defined.

(** C5 as it is written fails: the format [xml] is neither [csv] nor
    [json], and the import of a JSON upload with it returns. *)
Lemma import_chatroom_accepts_unknown_format :
  "xml" ≠ "csv" ∧ "xml" ≠ "json"
  ∧ (import_chatroom "uploads/chat.json" "xml" Demo.uploads).1 =
      inr {| import_message := "Successfully imported chat room chat";
             total_turns := 2;
             pre_annotated_turns := 1 |}.
Proof. split; [done|]. split; [done|]. by vm_compute. Qed.

Lemma import_chatroom_other_format_as_json_witness :
  "xml" ≠ "csv"
  ∧ import_chatroom "uploads/chat.json" "xml" Demo.uploads =
      import_chatroom "uploads/chat.json" "json" Demo.uploads.
Proof.
  split; [by vm_compute|].
  apply import_chatroom_other_format_as_json. by vm_compute.
Defined.


(** C4 as it is written fails: a thread column that holds two spaces
    holds a non-empty value that is not none or null, and the turn of the
    row has no annotation; a padded thread id is stored without its
    padding. *)
Lemma import_csv_strips_thread_value :
  "  " ≠ "" ∧ Py.lower "  " ≠ "none" ∧ Py.lower "  " ≠ "null"
  ∧ " T1 " ≠ "T1"
  ∧ (import_chatroom "uploads/spaced.csv" "csv" Demo.spaced).1 =
      inr {| import_message := "Successfully imported chat room spaced";
             total_turns := 2; pre_annotated_turns := 1 |}
  ∧ disentanglement_rooms
      (import_chatroom "uploads/spaced.csv" "csv" Demo.spaced).2
      !! "spaced" =
      Some {| room_id := "spaced";
              turns :=
                [ {| user_id := "u1"; turn_id := "t1";
                     turn_text := "hello"; reply_to_turn := None;
                     thread_id := None; annotator_id := None;
                     annotation_timestamp := None;
                     annotation_notes := None |};
                  {| user_id := "u2"; turn_id := "t2";
                     turn_text := "hi there"; reply_to_turn := None;
                     thread_id := Some "T1";
                     annotator_id := Some "imported";
                     annotation_timestamp := Some "2024-05-01 10:00:00";
                     annotation_notes :=
                       Some "Imported from uploads/spaced.csv" |} ] |}.
Proof. by vm_compute. Qed.

Lemma import_csv_row_annotations_witness :
  let run := import_chatroom "uploads/room1.csv" "csv" Demo.uploads in
  ∃ res ts,
    run.1 = inr res
    ∧ disentanglement_rooms run.2 !! "room1" =
        Some {| room_id := "room1"; turns := ts |}
    ∧ length ts = 2.
Proof.
  intros run.
  pose (res := {| import_message := "Successfully imported chat room room1";
                  total_turns := 2; pre_annotated_turns := 1 |}).
  destruct (import_csv_row_annotations Demo.uploads "uploads/room1.csv"
              res run.2)
    as (file & headers & records & ts & H1 & H2 & H3 & H4).
  - by vm_compute.
  - exists res, ts. split; [by vm_compute|]. split; [exact H3|].
    apply Forall2_length in H4. rewrite <- H4.
    vm_compute in H1. injection H1 as <-.
    vm_compute in H2. by injection H2 as <- <-.
Defined.



(** C9 as it is written fails: along the run that imports the csv upload
    and annotates its second turn with no thread id, the turn has no
    thread id in any state, and in the last state, which is reachable, it
    has an annotator and an annotation time. *)
Lemma annotated_without_thread :
  let final :=
    handle (Annotate "room1" "t2" "ann" None None)
           (handle (Import "uploads/room1.csv" "csv") Demo.uploads) in
  states Demo.uploads Demo.annotate_without_thread =
    [ Demo.uploads;
      handle (Import "uploads/room1.csv" "csv") Demo.uploads;
      final ]
  ∧ map (λ s, turn_at s "room1" "t2" ≫= thread_id)
        (states Demo.uploads Demo.annotate_without_thread) =
      [None; None; None]
  ∧ reachable final
  ∧ ∃ t, turn_at final "room1" "t2" = Some t
         ∧ thread_id t = None
         ∧ annotator_id t = Some "ann"
         ∧ annotation_timestamp t = Some "2024-05-01 10:00:01".
Proof.
  intros final. split; [reflexivity|]. split; [by vm_compute|].
  split; [apply reachable_handle, reachable_handle, reachable_start|].
  eexists. split; [by vm_compute|]. by vm_compute.
Qed.

(** A JSON import takes the annotation fields as it finds them: a turn
    with the empty string as thread id keeps it and gets no annotator,
    and a turn with an annotator and no thread id keeps the annotator. *)
Example json_import_takes_fields_as_given :
  let upload :=
    Demo.JsonText
      (JObj [ ("turns",
               JArr [ JObj [ ("user_id", JStr "u1"); ("turn_id", JStr "t1");
                             ("turn_text", JStr "hello");
                             ("thread_id", JStr "") ];
                      JObj [ ("user_id", JStr "u2"); ("turn_id", JStr "t2");
                             ("turn_text", JStr "hi there");
                             ("annotator_id", JStr "bob") ] ]) ]) in
  let s := {| disentanglement_rooms := ∅;
              fs := {[ "uploads/given.json" := upload ]}; clock := 0 |} in
  option_map
    (λ room, map (λ t, (thread_id t, annotator_id t, annotation_timestamp t))
                 (turns room))
    (disentanglement_rooms
       (import_chatroom "uploads/given.json" "json" s).2 !! "given") =
    Some [ (Some "", None, None); (None, Some "bob", None) ].
Proof. by vm_compute. Qed.

Lemma reachable_thread_annotated_witness :
  let s := handle (Import "uploads/room1.csv" "csv") Demo.uploads in
  ∃ room t,
    disentanglement_rooms s !! "room1" = Some room
    ∧ t ∈ turns room
    ∧ thread_id t = Some "T1"
    ∧ annotator_id t ≠ None ∧ annotation_timestamp t ≠ None.
Proof.
  intros s.
  pose (t := {| user_id := "u1"; turn_id := "t1"; turn_text := "hello";
                reply_to_turn := None; thread_id := Some "T1";
                annotator_id := Some "imported";
                annotation_timestamp := Some "2024-05-01 10:00:00";
                annotation_notes :=
                  Some "Imported from uploads/room1.csv" |}).
  pose (room := {| room_id := "room1";
                   turns := [t; Demo.plain "u2" "t2" "hi there"] |}).
  assert (disentanglement_rooms s !! "room1" = Some room) as Hroom
    by (by vm_compute).
  assert (t ∈ turns room) as Hin by (apply list_elem_of_In; simpl; tauto).
  exists room, t. split; [done|]. split; [done|]. split; [done|].
  apply (reachable_thread_annotated s "room1" room t); [|done|done|].
  - apply reachable_handle, reachable_start.
  - reflexivity.
Defined.

End Checks.

Module MoreChecks.

#[local] Existing Instance Demo.runtime.

Lemma annotate_turn_not_found_witness :
  annotate_turn "room1" "t9" "ann" (Some "A") None Demo2.imported =
    (inl (HTTPException 404 "Turn not found"), Demo2.imported)
  ∧ annotate_turn "nowhere" "t1" "ann" (Some "A") None Demo2.imported =
      (inl (HTTPException 404 "Chat room not found"), Demo2.imported).
Proof.
  split.
  - rewrite (annotate_turn_not_found Demo2.imported "room1" "t9");
      [reflexivity|].
    intros room Hroom. vm_compute in Hroom. injection Hroom as <-.
    repeat constructor; by vm_compute.
  - rewrite (annotate_turn_not_found Demo2.imported "nowhere" "t1");
      [reflexivity|].
    intros room Hroom. by vm_compute in Hroom.
Defined.



Lemma room_counts_ordered_witness :
  ∃ summary,
    get_thread_summary "blank" (Demo.store_of Demo.room_blank) =
      (inr summary, Demo.store_of Demo.room_blank)
    ∧ (summary_thread_count summary
         ≤ thread_count (room_summary "blank" Demo.room_blank))%nat.
Proof.
  destruct (room_counts_ordered (Demo.store_of Demo.room_blank) "blank"
              Demo.room_blank) as (summary & H1 & H2 & _).
  - reflexivity.
  - by exists summary.
Defined.

Lemma import_then_list_witness :
  let run := import_chatroom "uploads/room1.csv" "csv" Demo.uploads in
  ∃ listed entry,
    list_chatrooms run.2 = (inr listed, run.2)
    ∧ entry ∈ listed
    ∧ list_room_id entry = "room1"
    ∧ turn_count entry = 2 ∧ annotated_turns entry = 1.
Proof.
  intros run.
  pose (res := {| import_message := "Successfully imported chat room room1";
                  total_turns := 2; pre_annotated_turns := 1 |}).
  destruct (import_then_list Demo.uploads "uploads/room1.csv" "csv"
              res run.2)
    as (listed & entry & H1 & H2 & H3 & H4 & H5 & _).
  - by vm_compute.
  - exists listed, entry. split; [exact H1|]. split; [exact H2|].
    split; [exact H3|]. split; [exact H4 | exact H5].
Defined.

Lemma thread_summary_keeps_every_turn_witness :
  ∃ summary,
    get_thread_summary "ab" (Demo.store_of Demo.room_ab) =
      (inr summary, Demo.store_of Demo.room_ab)
    ∧ grouped_turns (summary_threads summary) = 3.
Proof.
  destruct (thread_summary_keeps_every_turn (Demo.store_of Demo.room_ab)
              "ab" Demo.room_ab) as (summary & H1 & H2 & _).
  - reflexivity.
  - exists summary. split; [done|]. rewrite H2. reflexivity.
Defined.

Lemma served_imported : served Demo2.imported.
Proof. unfold Demo2.imported. apply served_handle, served_start. Qed.



Lemma annotate_turn_twice_witness :
  let s := Demo.store_of Demo.room_r1 in
  annotate_turn "r1" "t2" "bob" None (Some "not sure")
    (annotate_turn "r1" "t2" "ann" (Some "A") None s).2 =
  annotate_turn "r1" "t2" "bob" None (Some "not sure")
    {| disentanglement_rooms := disentanglement_rooms s;
       fs := fs s; clock := S (clock s) |}.
Proof.
  intros s.
  apply (annotate_turn_twice s "r1" "t2" Demo.room_r1).
  - reflexivity.
  - exists (Demo.plain "u2" "t2" "hi there"). split; [|reflexivity].
    apply list_elem_of_In. simpl. tauto.
Defined.

End MoreChecks.
